(** * AquaPulse: the document-store accessors, the cloud gateway and the
    request router, embedded from [models.py], [aws_services.py] and
    [routes.py].

    Conventions of the embedding.
    - A Python [float] is idealised as an exact rational ([Q]); every constant
      the code compares against (6, 7, 8) and every level used below is
      separated from its neighbours by far more than a rounding error.
    - A Python [dict] that ends up as a BSON document is an association list:
      insertion order is kept and a key occurs at most once.
    - [request.form] and [request.files] are finite maps from field names.
    - A Python exception is a value of [exn]; code that may raise returns
      [exc A] and [try ... except Exception] is [catch].
    - The clock, the random generator and the external services are read
      through explicit arguments. *)

From stdpp Require Import gmap strings list pretty.
From Stdlib Require Import Ascii QArith Qround Lqa Sorted.

#[local] Open Scope string_scope.
#[local] Open Scope Z_scope.
#[local] Unset Elimination Schemes.

(** ** Python values *)

Module Py.

(** [datetime.datetime], field by field. *)
Record datetime := Datetime {
  year : nat; month : nat; day : nat;
  hour : nat; minute : nat; second : nat; microsecond : nat }.

Inductive value :=
| VNone
| VBool (b : bool)
| VInt (z : Z)
| VFloat (q : Q)
| VStr (s : string)
| VBytes (b : list Byte.byte)
| VObjectId (hex : string)
| VDatetime (d : datetime)
| VList (l : list value)
| VDict (d : list (string * value)).

(** A document / plain [dict]. *)
Abbreviation doc := (list (string * value)).

Inductive exn_kind :=
| DuplicateKeyError | ConnectionFailure | ClientError
| TypeError | ValueError | KeyError | IndexError | AttributeError
| NotImplementedError.

Record exn := Exn { kind : exn_kind; message : string }.

Inductive exc (A : Type) :=
| Ok (a : A)
| Raise (e : exn).
Arguments Ok {A} a.
Arguments Raise {A} e.

Definition bind {A B} (m : exc A) (k : A -> exc B) : exc B :=
  match m with Ok a => k a | Raise e => Raise e end.

(** [try: m  except Exception as e: h e] *)
Definition catch {A} (m : exc A) (h : exn -> A) : A :=
  match m with Ok a => a | Raise e => h e end.

Definition is_ok {A} (m : exc A) : bool :=
  match m with Ok _ => true | Raise _ => false end.

(** *** Dictionaries *)

Fixpoint dict_get (k : string) (d : doc) : option value :=
  match d with
  | [] => None
  | (k', v) :: d' => if String.eqb k k' then Some v else dict_get k d'
  end.

(** [d[k] = v]: overwrite in place, or append a new key. *)
Fixpoint dict_set (k : string) (v : value) (d : doc) : doc :=
  match d with
  | [] => [(k, v)]
  | (k', v') :: d' =>
      if String.eqb k k' then (k, v) :: d' else (k', v') :: dict_set k v d'
  end.

(** [del d[k]] (the caller has checked [k in d]). *)
Fixpoint dict_del (k : string) (d : doc) : doc :=
  match d with
  | [] => []
  | (k', v') :: d' =>
      if String.eqb k k' then d' else (k', v') :: dict_del k d'
  end.

Definition dict_has (k : string) (d : doc) : bool :=
  match dict_get k d with Some _ => true | None => false end.

(** [d.get(k, dflt)] *)
Definition dict_get_default (k : string) (dflt : value) (d : doc) : value :=
  match dict_get k d with Some v => v | None => dflt end.

(** [d[k]] *)
Definition dict_index (k : string) (d : doc) : exc value :=
  match dict_get k d with
  | Some v => Ok v
  | None => Raise (Exn KeyError ("'" +:+ k +:+ "'"))
  end.

(** *** Numbers *)

Definition Qgtb (a b : Q) : bool := negb (Qle_bool a b).

Definition num_of (v : value) : option Q :=
  match v with
  | VInt z => Some (inject_Z z)
  | VFloat q => Some q
  | VBool b => Some (if b then 1%Q else 0%Q)
  | _ => None
  end.

(** [v > n] for an integer literal [n]; unordered types raise. *)
Definition py_gt (v : value) (n : Z) : exc bool :=
  match num_of v with
  | Some q => Ok (Qgtb q (inject_Z n))
  | None => Raise (Exn TypeError "'>' not supported between instances")
  end.

(** [a + b] on numbers, as used by [+=] on counters. *)
Definition py_add (a b : value) : exc value :=
  match a, b with
  | VInt x, VInt y => Ok (VInt (x + y))
  | VInt x, VBool y => Ok (VInt (x + (if y then 1 else 0)))
  | VBool x, VInt y => Ok (VInt ((if x then 1 else 0) + y))
  | VBool x, VBool y => Ok (VInt ((if x then 1 else 0) + (if y then 1 else 0)))
  | _, _ =>
      match a, b, num_of a, num_of b with
      | VStr _, _, _, _ | _, VStr _, _, _ =>
          Raise (Exn TypeError "unsupported operand type(s) for +")
      | _, _, Some x, Some y => Ok (VFloat (Qred (x + y)))
      | _, _, _, _ => Raise (Exn TypeError "unsupported operand type(s) for +")
      end
  end.

(** Round half to even, to the nearest integer. *)
Definition round_half_even (q : Q) : Z :=
  let f := Qfloor q in
  match Qcompare (q - inject_Z f) (1 # 2) with
  | Lt => f
  | Gt => f + 1
  | Eq => if Z.even f then f else f + 1
  end.

(** [round(q, ndigits)] *)
Definition py_round (q : Q) (ndigits : nat) : Q :=
  let scale := Z.pow 10 (Z.of_nat ndigits) in
  Qred (Qmake (round_half_even (q * inject_Z scale)) (Z.to_pos scale)).

(** [int(q)]: truncation towards zero. *)
Definition py_int_of_float (q : Q) : Z :=
  if Qle_bool 0 q then Qfloor q else Qceiling q.

Definition Qmax (a b : Q) : Q := if Qle_bool a b then b else a.
Definition Qmin (a b : Q) : Q := if Qle_bool a b then a else b.

(** *** Truthiness and comparison with a string literal *)

Definition truthy (v : value) : bool :=
  match v with
  | VNone => false
  | VBool b => b
  | VInt z => negb (Z.eqb z 0)
  | VFloat q => negb (Qeq_bool q 0)
  | VStr s => negb (String.eqb s "")
  | VBytes b => match b with [] => false | _ => true end
  | VObjectId _ => true
  | VDatetime _ => true
  | VList l => match l with [] => false | _ => true end
  | VDict d => match d with [] => false | _ => true end
  end.

(** [v == 'lit'] *)
Definition eq_str (v : value) (lit : string) : bool :=
  match v with VStr s => String.eqb s lit | _ => false end.

Fixpoint bytes_eqb (s t : list Byte.byte) : bool :=
  match s, t with
  | [], [] => true
  | x :: s', y :: t' => Byte.eqb x y && bytes_eqb s' t'
  | _, _ => false
  end.

(** Structural equality of stored values; numbers compare by value. *)
Fixpoint value_eqb (a b : value) {struct a} : bool :=
  let fix list_eqb (l1 l2 : list value) {struct l1} : bool :=
    match l1, l2 with
    | [], [] => true
    | x :: l1', y :: l2' => value_eqb x y && list_eqb l1' l2'
    | _, _ => false
    end in
  let fix doc_eqb (d1 d2 : doc) {struct d1} : bool :=
    match d1, d2 with
    | [], [] => true
    | (k1, x) :: d1', (k2, y) :: d2' =>
        String.eqb k1 k2 && value_eqb x y && doc_eqb d1' d2'
    | _, _ => false
    end in
  match a, b with
  | VNone, VNone => true
  | VStr s, VStr t => String.eqb s t
  | VBytes s, VBytes t => bytes_eqb s t
  | VObjectId s, VObjectId t => String.eqb s t
  | VDatetime s, VDatetime t =>
      bool_decide ((year s, month s, day s, hour s, minute s, second s,
                    microsecond s)
                   = (year t, month t, day t, hour t, minute t, second t,
                      microsecond t))
  | VList l1, VList l2 => list_eqb l1 l2
  | VDict d1, VDict d2 => doc_eqb d1 d2
  | (VBool _ | VInt _ | VFloat _), (VBool _ | VInt _ | VFloat _) =>
      match num_of a, num_of b with
      | Some x, Some y => Qeq_bool x y
      | _, _ => false
      end
  | _, _ => false
  end.

(** *** Strings *)

Definition lower_ascii (c : Ascii.ascii) : Ascii.ascii :=
  let n := Ascii.nat_of_ascii c in
  if (Nat.leb 65 n && Nat.leb n 90)%bool then Ascii.ascii_of_nat (n + 32) else c.

(** [s.lower()] on ASCII text. *)
Fixpoint lower (s : string) : string :=
  match s with
  | EmptyString => EmptyString
  | String c s' => String (lower_ascii c) (lower s')
  end.

(** [needle in hay] *)
Fixpoint contains (needle hay : string) : bool :=
  String.prefix needle hay ||
  match hay with
  | EmptyString => false
  | String _ hay' => contains needle hay'
  end.

(** ["%0*d"]: decimal, left-padded with zeros to [width]. *)
Definition zero_pad (width : nat) (n : nat) : string :=
  let s := pretty n in
  Nat.iter (width - String.length s) (String "0"%char) s.

(** [d.isoformat()] *)
Definition isoformat (d : datetime) : string :=
  zero_pad 4 (year d) +:+ "-" +:+ zero_pad 2 (month d) +:+ "-" +:+
  zero_pad 2 (day d) +:+ "T" +:+ zero_pad 2 (hour d) +:+ ":" +:+
  zero_pad 2 (minute d) +:+ ":" +:+ zero_pad 2 (second d) +:+
  (if Nat.eqb (microsecond d) 0 then ""
   else "." +:+ zero_pad 6 (microsecond d)).

(** [a >= b] on datetimes. *)
Definition dt_geb (a b : datetime) : bool :=
  let key d :=
    ((((((Z.of_nat (year d) * 13 + Z.of_nat (month d)) * 32
         + Z.of_nat (day d)) * 24 + Z.of_nat (hour d)) * 60
       + Z.of_nat (minute d)) * 60 + Z.of_nat (second d)) * 1000000
     + Z.of_nat (microsecond d)) in
  Z.leb (key b) (key a).

End Py.
Import Py.

#[local] Notation "x <- m ;; k" := (bind m (fun x => k))
  (at level 100, m at next level, right associativity).

(** ** hashlib.md5 (RFC 1321) over 32-bit words held in [Z] *)

Module MD5.

Definition mask32 : Z := 0xffffffff.
Definition add32 (a b : Z) : Z := Z.land (a + b) mask32.
Definition not32 (a : Z) : Z := Z.lxor a mask32.
Definition rotl32 (x : Z) (c : Z) : Z :=
  Z.land (Z.lor (Z.shiftl x c) (Z.shiftr x (32 - c))) mask32.

Definition K : list Z :=
  [0xd76aa478; 0xe8c7b756; 0x242070db; 0xc1bdceee;
   0xf57c0faf; 0x4787c62a; 0xa8304613; 0xfd469501;
   0x698098d8; 0x8b44f7af; 0xffff5bb1; 0x895cd7be;
   0x6b901122; 0xfd987193; 0xa679438e; 0x49b40821;
   0xf61e2562; 0xc040b340; 0x265e5a51; 0xe9b6c7aa;
   0xd62f105d; 0x02441453; 0xd8a1e681; 0xe7d3fbc8;
   0x21e1cde6; 0xc33707d6; 0xf4d50d87; 0x455a14ed;
   0xa9e3e905; 0xfcefa3f8; 0x676f02d9; 0x8d2a4c8a;
   0xfffa3942; 0x8771f681; 0x6d9d6122; 0xfde5380c;
   0xa4beea44; 0x4bdecfa9; 0xf6bb4b60; 0xbebfbc70;
   0x289b7ec6; 0xeaa127fa; 0xd4ef3085; 0x04881d05;
   0xd9d4d039; 0xe6db99e5; 0x1fa27cf8; 0xc4ac5665;
   0xf4292244; 0x432aff97; 0xab9423a7; 0xfc93a039;
   0x655b59c3; 0x8f0ccc92; 0xffeff47d; 0x85845dd1;
   0x6fa87e4f; 0xfe2ce6e0; 0xa3014314; 0x4e0811a1;
   0xf7537e82; 0xbd3af235; 0x2ad7d2bb; 0xeb86d391].

Definition shifts : list Z :=
  [7; 12; 17; 22; 7; 12; 17; 22; 7; 12; 17; 22; 7; 12; 17; 22;
   5; 9; 14; 20; 5; 9; 14; 20; 5; 9; 14; 20; 5; 9; 14; 20;
   4; 11; 16; 23; 4; 11; 16; 23; 4; 11; 16; 23; 4; 11; 16; 23;
   6; 10; 15; 21; 6; 10; 15; 21; 6; 10; 15; 21; 6; 10; 15; 21].

(** The message with the 0x80 byte, the zero padding and the bit length. *)
Definition pad (msg : list Byte.byte) : list Z :=
  let bytes := (fun b => Z.of_N (Byte.to_N b)) <$> msg in
  let len := Z.of_nat (length msg) in
  let zeros := Z.to_nat ((55 - len) mod 64) in
  let bits := len * 8 in
  bytes ++ [0x80] ++ replicate zeros 0
        ++ ((fun i => Z.land (Z.shiftr bits (8 * Z.of_nat i)) 0xff) <$> seq 0 8).

Definition word_le (b0 b1 b2 b3 : Z) : Z :=
  b0 + Z.shiftl b1 8 + Z.shiftl b2 16 + Z.shiftl b3 24.

Fixpoint words (bytes : list Z) : list Z :=
  match bytes with
  | b0 :: b1 :: b2 :: b3 :: rest => word_le b0 b1 b2 b3 :: words rest
  | _ => []
  end.

Fixpoint blocks (fuel : nat) (ws : list Z) : list (list Z) :=
  match fuel, ws with
  | S fuel', _ :: _ => take 16 ws :: blocks fuel' (drop 16 ws)
  | _, _ => []
  end.

Definition state : Type := Z * Z * Z * Z.

Definition round (M : list Z) (s : state) (i : nat) : state :=
  let '(A, B, C, D) := s in
  let '(F, g) :=
    if (i <? 16)%nat then (Z.lor (Z.land B C) (Z.land (not32 B) D), i)
    else if (i <? 32)%nat
         then (Z.lor (Z.land D B) (Z.land (not32 D) C), (5 * i + 1) mod 16)%nat
    else if (i <? 48)%nat
         then (Z.lxor (Z.lxor B C) D, (3 * i + 5) mod 16)%nat
    else (Z.lxor C (Z.lor B (not32 D)), (7 * i) mod 16)%nat in
  let F' := add32 (add32 (add32 F A) (nth i K 0)) (nth g M 0) in
  (D, add32 B (rotl32 F' (nth i shifts 0)), B, C).

Definition compress (s : state) (M : list Z) : state :=
  let '(a0, b0, c0, d0) := s in
  let '(A, B, C, D) := foldl (round M) s (seq 0 64) in
  (add32 a0 A, add32 b0 B, add32 c0 C, add32 d0 D).

Definition init : state := (0x67452301, 0xefcdab89, 0x98badcfe, 0x10325476).

Definition bytes_le (w : Z) : list Z :=
  (fun i => Z.land (Z.shiftr w (8 * Z.of_nat i)) 0xff) <$> seq 0 4.

(** [hashlib.md5(msg).digest()], one [Z] per byte. *)
Definition digest (msg : list Byte.byte) : list Z :=
  let ws := words (pad msg) in
  let '(a, b, c, d) := foldl compress init (blocks (length ws) ws) in
  bytes_le a ++ bytes_le b ++ bytes_le c ++ bytes_le d.

Definition hex_char (n : Z) : ascii :=
  match n with
  | 0 => "0" | 1 => "1" | 2 => "2" | 3 => "3" | 4 => "4"
  | 5 => "5" | 6 => "6" | 7 => "7" | 8 => "8" | 9 => "9"
  | 10 => "a" | 11 => "b" | 12 => "c" | 13 => "d" | 14 => "e"
  | _ => "f"
  end%char.

(** [hashlib.md5(msg).hexdigest()] *)
Definition hexdigest (msg : list Byte.byte) : string :=
  foldr (fun b acc => String (hex_char (b / 16)) (String (hex_char (b mod 16)) acc))
    "" (digest msg).

End MD5.

(** [int(s, 16)] on a string of hexadecimal digits. *)
Definition hex_value (c : ascii) : option Z :=
  let n := Z.of_nat (nat_of_ascii c) in
  if (48 <=? n) && (n <=? 57) then Some (n - 48)
  else if (97 <=? n) && (n <=? 102) then Some (n - 87)
  else if (65 <=? n) && (n <=? 70) then Some (n - 55)
  else None.

Fixpoint int_of_hex_from (acc : Z) (s : string) : option Z :=
  match s with
  | EmptyString => Some acc
  | String c s' =>
      match hex_value c with
      | Some d => int_of_hex_from (acc * 16 + d) s'
      | None => None
      end
  end.

Definition int_of_hex (s : string) : option Z := int_of_hex_from 0 s.

(** Stand-ins for the interpreter's text functions, for the examples that
    run the model: the text they return is not inspected. *)
Definition opaque_repr (v : value) : string := "<value>".


Definition no_float (s : string) : exc Q :=
  Raise (Exn ValueError "could not convert string to float").

Section AquaPulse.

(** [repr()] of the values whose text is produced by the interpreter itself
    (floats, bytes, containers). *)
Variable py_repr : value -> string.

(** [str(v)] *)
Definition py_str (v : value) : string :=
  match v with
  | VNone => "None"
  | VBool b => if b then "True" else "False"
  | VInt z => pretty z
  | VStr s => s
  | VObjectId hex => hex
  | _ => py_repr v
  end.

(** ** models.py: the document store *)

(** A collection: its documents in insertion order and the fields that carry
    a unique index besides [_id]. *)
Record collection := Collection {
  docs : list doc;
  unique_fields : list string }.

Record store := Store {
  up : bool;                      (* the server answers *)
  next_oid : N;                   (* ObjectId generator of the driver *)
  sensors : collection;
  pollution_reports : collection;
  predictions : collection;
  cleanup_logs : collection }.

Definition hex_digit (n : N) : ascii :=
  match n with
  | 0%N => "0" | 1%N => "1" | 2%N => "2" | 3%N => "3" | 4%N => "4"
  | 5%N => "5" | 6%N => "6" | 7%N => "7" | 8%N => "8" | 9%N => "9"
  | 10%N => "a" | 11%N => "b" | 12%N => "c" | 13%N => "d" | 14%N => "e"
  | _ => "f"
  end%char.

Fixpoint hex_fixed (width : nat) (n : N) (acc : string) : string :=
  match width with
  | O => acc
  | S w => hex_fixed w (n / 16)%N (String (hex_digit (n mod 16)%N) acc)
  end.

(** The [n]-th ObjectId: 12 bytes, shown as 24 hexadecimal digits. *)
Definition oid (n : N) : value := VObjectId (hex_fixed 24 n "").

Definition server_down : exn :=
  Exn ConnectionFailure "server selection timed out".

Definition same_key (k : string) (d d' : doc) : bool :=
  match dict_get k d, dict_get k d' with
  | Some v, Some v' => value_eqb v v'
  | _, _ => false
  end.

(** [d] repeats the value some stored document has under a unique index. *)
Definition conflicts (c : collection) (d : doc) : bool :=
  existsb (fun k => existsb (same_key k d) (docs c)) ("_id" :: unique_fields c).

Definition push (c : collection) (d : doc) : collection :=
  Collection (docs c ++ [d]) (unique_fields c).

(** [collection.insert_one(d)]: the driver first gives [d] an [_id] when it
    has none (the caller's dict is changed), then the server stores it or
    rejects it.  Returns the dict as the caller sees it afterwards, the next
    ObjectId and the outcome. *)
Definition insert_one (alive : bool) (next : N) (c : collection) (d : doc)
  : doc * N * exc collection :=
  let '(d', next') :=
    if dict_has "_id" d then (d, next)
    else (dict_set "_id" (oid next) d, (next + 1)%N) in
  (d', next',
   if negb alive then Raise server_down
   else if conflicts c d'
        then Raise (Exn DuplicateKeyError "E11000 duplicate key error")
        else Ok (push c d')).

Definition set_sensors (st : store) (next : N) (c : collection) : store :=
  Store (up st) next c (pollution_reports st) (predictions st) (cleanup_logs st).

Definition set_pollution_reports (st : store) (next : N) (c : collection)
  : store :=
  Store (up st) next (sensors st) c (predictions st) (cleanup_logs st).

Definition not_subscriptable : exn :=
  Exn TypeError "object does not support item assignment".

(** The [for sensor in sensor_data] loop of [store_sensor_data]; [clock i] is
    what [datetime.now()] returns in iteration [i].  The third component is
    [sensor_data] as the caller sees it afterwards. *)
Fixpoint store_sensor_loop (clock : nat -> datetime) (i : nat) (st : store)
    (sensor_data : list value) : exc unit * store * list value :=
  match sensor_data with
  | [] => (Ok tt, st, [])
  | VDict sensor :: rest =>
      let stamped := dict_set "stored_at" (VDatetime (clock i)) sensor in
      let '(sensor', next, r) :=
        insert_one (up st) (next_oid st) (sensors st) stamped in
      match r with
      | Ok c =>
          let '(r', st', rest') :=
            store_sensor_loop clock (S i) (set_sensors st next c) rest in
          (r', st', VDict sensor' :: rest')
      | Raise e =>
          match kind e with
          | DuplicateKeyError =>
              (* Ignore duplicate key errors silently *)
              let '(r', st', rest') :=
                store_sensor_loop clock (S i)
                  (set_sensors st next (sensors st)) rest in
              (r', st', VDict sensor' :: rest')
          | _ =>
              (Raise e, set_sensors st next (sensors st),
               VDict sensor' :: rest)
          end
      end
  | other :: rest => (Raise not_subscriptable, st, other :: rest)
  end.

(** [MongoDBManager.store_sensor_data] *)
Definition store_sensor_data (clock : nat -> datetime) (st : store)
    (sensor_data : list value) : bool * store * list value :=
  let '(r, st', data') := store_sensor_loop clock 0 st sensor_data in
  (catch (_ <- r ;; Ok true) (fun _ => false), st', data').

(** *** Queries *)

(** The BSON comparison order, as far as the stored values need it: null,
    numbers, strings, documents, arrays, binary, ObjectId, booleans, dates. *)
Definition bson_rank (v : value) : nat :=
  match v with
  | VNone => 1 | VInt _ | VFloat _ => 2 | VStr _ => 3 | VDict _ => 4
  | VList _ => 5 | VBytes _ => 6 | VObjectId _ => 7 | VBool _ => 8
  | VDatetime _ => 9
  end%nat.

Definition bson_ltb (a b : value) : bool :=
  if Nat.ltb (bson_rank a) (bson_rank b) then true
  else if Nat.ltb (bson_rank b) (bson_rank a) then false
  else match a, b with
       | VStr s, VStr t | VObjectId s, VObjectId t => String.ltb s t
       | VDatetime s, VDatetime t => negb (dt_geb s t)
       | VBool s, VBool t => negb s && t
       | _, _ =>
           match num_of a, num_of b with
           | Some x, Some y => negb (Qle_bool y x)
           | _, _ => false
           end
       end.

(** A missing field sorts and groups as null. *)
Definition field (k : string) (d : doc) : value := dict_get_default k VNone d.

Fixpoint insert_desc (k : string) (d : doc) (sorted : list doc) : list doc :=
  match sorted with
  | [] => [d]
  | d' :: rest =>
      if bson_ltb (field k d') (field k d) then d :: sorted
      else d' :: insert_desc k d rest
  end.

(** [.sort(k, -1)]; documents with equal keys keep their stored order. *)
Definition sort_desc (k : string) (l : list doc) : list doc :=
  foldr (fun d acc => insert_desc k d acc) [] l.

(** [list(collection.find())] *)
Definition find_all (st : store) (c : collection) : exc (list doc) :=
  if up st then Ok (docs c) else Raise server_down.

(** [collection.count_documents(filter)] *)
Definition count_documents (st : store) (c : collection) (flt : doc -> bool)
  : exc Z :=
  if up st then Ok (Z.of_nat (length (filter (fun d => flt d = true) (docs c))))
  else Raise server_down.

(** [if '_id' in item: item['_id'] = str(item['_id'])] *)
Definition stringify_id (item : doc) : doc :=
  match dict_get "_id" item with
  | Some v => dict_set "_id" (VStr (py_str v)) item
  | None => item
  end.

(** [cursor.limit(n)]: the first [n] documents; a limit of 0 is no limit. *)
Definition cursor_limit {A} (n : nat) (l : list A) : list A :=
  match n with O => l | S _ => take n l end.

(** [MongoDBManager.get_recent_sensor_data], for a limit that is a natural
    number. *)
Definition get_recent_sensor_data (st : store) (limit : nat) : list doc :=
  catch
    (found <- find_all st (sensors st) ;;
     Ok (stringify_id <$> cursor_limit limit (sort_desc "stored_at" found)))
    (fun _ => []).

(** [MongoDBManager.get_all_reports] *)
Definition get_all_reports (st : store) : list doc :=
  catch
    (found <- find_all st (pollution_reports st) ;;
     Ok (stringify_id <$> sort_desc "reported_at" found))
    (fun _ => []).









(** *** Sensor status *)

(** The rule of [seed_db] and [_generate_dynamic_sensor_data]:
    [status = "active"; if level > 8: "critical"; elif level > 6: "warning"]. *)
Definition derive_status (pollution_level : Q) : string :=
  if Qgtb pollution_level 8 then "critical"
  else if Qgtb pollution_level 6 then "warning"
  else "active".

(** The rows enumerated by [initialize_sample_data]:
    location, lat, lng, pollution_level, status. *)
Definition sample_rows : list (string * Q * Q * Q * string) :=
  [("Pacific Ocean", 356762 # 10000, 1396503 # 10000, 72 # 10, "active");
   ("Atlantic Ocean", 407128 # 10000, - (740060 # 10000), 58 # 10, "active");
   ("Mediterranean Sea", 437696 # 10000, 112558 # 10000, 91 # 10, "warning");
   ("Indian Ocean", - (338688 # 10000), 1512093 # 10000, 64 # 10, "active");
   ("Arctic Ocean", 710489 # 10000, - (80173 # 10000), 32 # 10, "active")]%Q.

Definition sample_sensor (clock : nat -> datetime) (i : nat)
    (row : string * Q * Q * Q * string) : doc :=
  let '(location, lat, lng, pollution_level, status) := row in
  [("id", VStr ("sensor_init_" +:+ zero_pad 3 i));
   ("location", VStr location);
   ("lat", VFloat lat);
   ("lng", VFloat lng);
   ("pollution_level", VFloat pollution_level);
   ("status", VStr status);
   ("timestamp", VStr (isoformat (clock i)));
   ("microplastics", VInt (py_int_of_float (pollution_level * 1000)));
   ("temperature", VFloat (Qred (20 + inject_Z (Z.of_nat i * 2))));
   ("turbidity", VFloat (Qred (pollution_level * 10)))].

Definition sample_sensors (clock : nat -> datetime) : list doc :=
  imap (sample_sensor clock) sample_rows.

(** [MongoDBManager.initialize_sample_data]: [clock] stamps the samples,
    [clock'] is the clock seen by [store_sensor_data]. *)
Definition initialize_sample_data (clock clock' : nat -> datetime) (st : store)
  : bool * store :=
  match count_documents st (sensors st) (fun _ => true) with
  | Ok sensor_count =>
      if Z.eqb sensor_count 0 then
        let '(_, st', _) :=
          store_sensor_data clock' st (VDict <$> sample_sensors clock) in
        (true, st')
      else (true, st)
  | Raise _ => (false, st)
  end.

(** The random draws [seed_db] makes for one sensor. *)
Record seed_draw := SeedDraw {
  sd_choice : nat;        (* choice(sensor_locations) *)
  sd_level : Q;           (* uniform(2, 10) *)
  sd_dlat : Q;            (* uniform(-1, 1) *)
  sd_dlng : Q;            (* uniform(-1, 1) *)
  sd_when : datetime;     (* datetime.now() - timedelta(hours=randint(0, 72)) *)
  sd_micro : Z;           (* randint(0, 500) *)
  sd_dtemp : Q;           (* uniform(-5, 15) *)
  sd_turb : Z }.          (* randint(0, 50) *)

(** [sensor_locations]; [jitter i] are the two uniform draws of row [i]. *)
Definition sensor_locations (jitter : nat -> Q * Q) : list (string * Q * Q) :=
  imap (fun i '(name, lat, lng) =>
          (name, (lat + fst (jitter i))%Q, (lng + snd (jitter i))%Q))
    [("Pacific Ocean", 35, 140); ("Atlantic Ocean", 40, - 50);
     ("Mediterranean Sea", 40, 15); ("Indian Ocean", - 20, 80);
     ("Arctic Ocean", 75, 0); ("Baltic Sea", 58, 20); ("North Sea", 55, 3);
     ("Caribbean Sea", 15, - 75); ("South China Sea", 15, 115);
     ("Gulf of Mexico", 25, - 90)]%Q.

(** One iteration of [for i in range(120)] in [seed_db]. *)
Definition seed_sensor (locations : list (string * Q * Q)) (i : nat)
    (r : seed_draw) : doc :=
  let loc := nth (sd_choice r mod length locations) locations ("", 0%Q, 0%Q) in
  let pollution_level := py_round (sd_level r) 1 in
  let status := derive_status pollution_level in
  [("id", VStr ("sensor_" +:+ zero_pad 3 i));
   ("location", VStr (fst (fst loc)));
   ("lat", VFloat (py_round (snd (fst loc) + sd_dlat r) 4));
   ("lng", VFloat (py_round (snd loc + sd_dlng r) 4));
   ("pollution_level", VFloat pollution_level);
   ("status", VStr status);
   ("timestamp", VStr (isoformat (sd_when r)));
   ("microplastics",
      VInt (py_int_of_float (pollution_level * 1000 + inject_Z (sd_micro r))));
   ("temperature", VFloat (py_round (15 + sd_dtemp r) 1));
   ("turbidity",
      VFloat (py_round (pollution_level * 10 + inject_Z (sd_turb r)) 1))].

(** The sensors block of [seed_db]: the 120 generated records. *)
Definition seed_sensors (jitter : nat -> Q * Q) (draws : nat -> seed_draw)
  : list doc :=
  (fun i => seed_sensor (sensor_locations jitter) i (draws i)) <$> seq 0 120.

(** *** Cleanup missions *)

Record cleanup_totals := CleanupTotals {
  ocean_drones : value;
  surface_vessels : value;
  underwater_units : value;
  waste_collected_today : value;
  hotspots_addressed : Z;
  active_missions : Z;
  next_deployment : value }.

Definition no_get : exn := Exn AttributeError "object has no attribute 'get'".

(** The body of [for mission in missions] in [get_cleanup_data]. *)
Definition cleanup_step (acc : cleanup_totals) (mission : doc)
  : exc cleanup_totals :=
  r <- match dict_get_default "robots" (VDict []) mission with
       | VDict r => Ok r
       | _ => Raise no_get
       end ;;
  od <- py_add (ocean_drones acc) (dict_get_default "ocean_drones" (VInt 0) r) ;;
  sv <- py_add (surface_vessels acc)
          (dict_get_default "surface_vessels" (VInt 0) r) ;;
  uu <- py_add (underwater_units acc)
          (dict_get_default "underwater_units" (VInt 0) r) ;;
  let active :=
    if eq_str (field "status" mission) "active"
    then active_missions acc + 1 else active_missions acc in
  waste <- py_add (waste_collected_today acc)
             (dict_get_default "waste_collected" (VInt 0) mission) ;;
  let hotspots :=
    if eq_str (field "status" mission) "completed"
    then hotspots_addressed acc + 1 else hotspots_addressed acc in
  let next :=
    if negb (truthy (next_deployment acc))
       && truthy (field "next_deployment" mission)
    then field "next_deployment" mission else next_deployment acc in
  Ok (CleanupTotals od sv uu waste hotspots active next).

Fixpoint cleanup_loop (acc : cleanup_totals) (missions : list doc)
  : exc cleanup_totals :=
  match missions with
  | [] => Ok acc
  | mission :: rest => acc' <- cleanup_step acc mission ;; cleanup_loop acc' rest
  end.

Definition cleanup_summary (acc : cleanup_totals) : doc :=
  [("active_missions", VInt (active_missions acc));
   ("cleanup_robots",
      VDict [("ocean_drones", ocean_drones acc);
             ("surface_vessels", surface_vessels acc);
             ("underwater_units", underwater_units acc)]);
   ("waste_collected_today", waste_collected_today acc);
   ("hotspots_addressed", VInt (hotspots_addressed acc));
   ("next_deployment",
      if truthy (next_deployment acc) then next_deployment acc else VStr "")].

Definition cleanup_zero : cleanup_totals :=
  CleanupTotals (VInt 0) (VInt 0) (VInt 0) (VInt 0) 0 0 VNone.

(** [MongoDBManager.get_cleanup_data] *)
Definition get_cleanup_data (st : store) : doc :=
  catch
    (missions <- find_all st (cleanup_logs st) ;;
     acc <- cleanup_loop cleanup_zero missions ;;
     Ok (cleanup_summary acc))
    (fun _ =>
       [("active_missions", VInt 0);
        ("cleanup_robots",
           VDict [("ocean_drones", VInt 0); ("surface_vessels", VInt 0);
                  ("underwater_units", VInt 0)]);
        ("waste_collected_today", VInt 0);
        ("hotspots_addressed", VInt 0);
        ("next_deployment", VStr "")]).

(** ** aws_services.py: the cloud gateway *)

(** [json.dumps] of the interpreter. *)
Variable json_dumps : value -> exc string.

(** The external operations the modelled wrappers call, each with the outcome
    of creating its client and of the call itself. *)
Record cloud := Cloud {
  (* json.loads(bedrock_runtime.invoke_model(body=json.dumps(body), ...)
       ['body'].read().decode()), given [body] *)
  bedrock_invoke_model : doc -> exc value;
  iot_create_thing : value -> exc doc;
  (* polly.synthesize_speech(...)['AudioStream'].read() *)
  polly_synthesize_speech : value -> value -> exc (list Byte.byte);
  rekognition_detect_labels : list Byte.byte -> exc doc;
  iot_list_things : exc doc;
  sagemaker_list_models : exc doc;
  s3_list_buckets : exc doc;
  s3_create_bucket : string -> exc unit;
  s3_put_object : string -> string -> value -> exc unit;
  transcribe_get_vocabulary : value -> exc doc }.

Definition not_iterable : exn := Exn TypeError "object is not iterable".

(** [for x in v] *)
Definition py_iter (v : value) : exc (list value) :=
  match v with
  | VList l => Ok l
  | VDict d => Ok ((fun kv => VStr (fst kv)) <$> d)
  | VStr s => Ok ((fun c => VStr (String c "")) <$> String.list_ascii_of_string s)
  | VBytes b => Ok ((fun x => VInt (Z.of_N (Byte.to_N x))) <$> b)
  | _ => Raise not_iterable
  end.

(** [v['k']] *)
Definition py_getitem (v : value) (k : string) : exc value :=
  match v with
  | VDict d => dict_index k d
  | _ => Raise (Exn TypeError "indices must be integers")
  end.

(** [v.lower()] *)
Definition py_lower (v : value) : exc string :=
  match v with
  | VStr s => Ok (lower s)
  | _ => Raise (Exn AttributeError "object has no attribute 'lower'")
  end.


Definition repeat_list {A} (n : Z) (l : list A) : list A :=
  Nat.iter (Z.to_nat n) (app l) [].

(** [v * n] for an integer literal [n]. *)
Definition py_mul_int (v : value) (n : Z) : exc value :=
  match v with
  | VInt z => Ok (VInt (z * n))
  | VBool b => Ok (VInt ((if b then 1 else 0) * n))
  | VFloat q => Ok (VFloat (Qred (q * inject_Z n)))
  | VStr s => Ok (VStr (Nat.iter (Z.to_nat n) (String.append s) ""))
  | VBytes b => Ok (VBytes (repeat_list n b))
  | VList l => Ok (VList (repeat_list n l))
  | _ => Raise (Exn TypeError "unsupported operand type(s) for *")
  end.

(** [mapM] over a list, left to right. *)
Fixpoint for_each {A B} (f : A -> exc B) (l : list A) : exc (list B) :=
  match l with
  | [] => Ok []
  | x :: rest => y <- f x ;; ys <- for_each f rest ;; Ok (y :: ys)
  end.

Fixpoint for_each_i {A B} (f : nat -> A -> exc B) (i : nat) (l : list A)
  : exc (list B) :=
  match l with
  | [] => Ok []
  | x :: rest => y <- f i x ;; ys <- for_each_i f (S i) rest ;; Ok (y :: ys)
  end.

(** The defaults [get_iot_sensor_data] fills in for one sensor. *)
Definition fill_defaults (clock : nat -> datetime) (i : nat) (sensor : doc)
  : exc doc :=
  let s1 := if dict_has "timestamp" sensor then sensor
            else dict_set "timestamp" (VStr (isoformat (clock i))) sensor in
  s2 <- (if dict_has "microalgae" s1 then Ok s1
         else m <- py_mul_int (dict_get_default "pollution_level" (VInt 5) s1)
                     1000 ;;
              Ok (dict_set "microalgae" m s1)) ;;
  let s3 := if dict_has "temperature" s2 then s2
            else dict_set "temperature" (VInt 20) s2 in
  if dict_has "turbidity" s3 then Ok s3
  else t <- py_mul_int (dict_get_default "pollution_level" (VInt 5) s3) 10 ;;
       Ok (dict_set "turbidity" t s3).

(** [AWSServices.get_iot_sensor_data] *)
Definition get_iot_sensor_data (clock : nat -> datetime) (st : store)
  : list doc :=
  catch
    (let sensor_data := get_recent_sensor_data st 10 in
     match sensor_data with
     | [] => Ok []
     | _ => for_each_i (fill_defaults clock) 0 sensor_data
     end)
    (fun _ => []).

(** The random draws [_generate_dynamic_sensor_data] makes for one region. *)
Record gen_draw := GenDraw {
  gd_lat : Q;             (* uniform over region["lat_range"] *)
  gd_lng : Q;             (* uniform over region["lng_range"] *)
  gd_delta : Q;           (* uniform(-1.0, 1.0) *)
  gd_micro : Z;           (* randint(0, 500) *)
  gd_dtemp : Q;           (* uniform(-10, 15) *)
  gd_turb : Z }.          (* randint(0, 50) *)

Definition ocean_regions : list string :=
  ["Pacific Ocean"; "Atlantic Ocean"; "Mediterranean Sea"; "Indian Ocean";
   "Arctic Ocean"].

Definition base_pollution (name : string) : Q :=
  if String.eqb name "Mediterranean Sea" then 85 # 10
  else if String.eqb name "Pacific Ocean" then 7
  else if String.eqb name "Atlantic Ocean" then 55 # 10
  else if String.eqb name "Indian Ocean" then 6
  else if String.eqb name "Arctic Ocean" then 3
  else 5.

(** One iteration of [for i, region in enumerate(ocean_regions)]. *)
Definition generated_sensor (timestamp : Z) (clock : nat -> datetime)
    (draws : nat -> gen_draw) (i : nat) (region : string) : doc :=
  let r := draws i in
  let sensor_id := "sensor_" +:+ pretty timestamp +:+ "_" +:+ zero_pad 3 i in
  let pollution_level := (base_pollution region + gd_delta r)%Q in
  let pollution_level := Qmax (1 # 10) (Qmin 10 pollution_level) in
  let status := derive_status pollution_level in
  [("id", VStr sensor_id);
   ("location", VStr region);
   ("lat", VFloat (py_round (gd_lat r) 4));
   ("lng", VFloat (py_round (gd_lng r) 4));
   ("pollution_level", VFloat (py_round pollution_level 1));
   ("status", VStr status);
   ("timestamp", VStr (isoformat (clock i)));
   ("microalgae",
      VInt (py_int_of_float (pollution_level * 1000 + inject_Z (gd_micro r))));
   ("temperature", VFloat (py_round (20 + gd_dtemp r) 1));
   ("turbidity",
      VFloat (py_round (pollution_level * 10 + inject_Z (gd_turb r)) 1))].

(** [AWSServices._generate_dynamic_sensor_data]: the returned list holds the
    very dicts handed to [store_sensor_data], as that call left them. *)
Definition _generate_dynamic_sensor_data (timestamp : Z)
    (clock clock' : nat -> datetime) (draws : nat -> gen_draw) (st : store)
  : list value * store :=
  let sensors := imap (generated_sensor timestamp clock draws) ocean_regions in
  let '(_, st', sensors') := store_sensor_data clock' st (VDict <$> sensors) in
  (sensors', st').








Definition bloom_keywords : list string :=
  ["harmful algae bloom"; "algae"; "waste"; "trash"; "debris"].

(** [AWSServices.analyze_image] *)
Definition analyze_image (aws : cloud) (image_data : list Byte.byte)
  : list doc :=
  catch
    (response <- rekognition_detect_labels aws image_data ;;
     labels <- (l <- dict_index "Labels" response ;; py_iter l) ;;
     found <- for_each
       (fun label =>
          name <- py_getitem label "Name" ;;
          low <- py_lower name ;;
          if existsb (fun keyword => contains keyword low) bloom_keywords
          then conf <- py_getitem label "Confidence" ;;
               Ok [[("name", name); ("confidence", conf)]]
          else Ok [])
       labels ;;
     Ok (concat found))
    (fun _ => []).

(** The entry [get_prediction_data] appends for one sensor. *)
Definition prediction_of (sensor : doc) : doc :=
  [("region", dict_get_default "location" (VStr "Unknown") sensor);
   ("current_level", dict_get_default "pollution_level" (VInt 0) sensor);
   ("predicted_7days", dict_get_default "pollution_level" (VInt 0) sensor);
   ("predicted_30days", dict_get_default "pollution_level" (VInt 0) sensor);
   ("trend", VStr "stable");
   ("confidence", VInt 90)].

(** [AWSServices.get_prediction_data] *)
Definition get_prediction_data (st : store) : list doc :=
  let sensor_data := get_recent_sensor_data st 10 in
  match sensor_data with
  | [] => []                      (* if not sensor_data: return [] *)
  | _ => prediction_of <$> sensor_data
  end.

(** [AWSServices.get_cleanup_coordination] *)
Definition get_cleanup_coordination (st : store) : doc :=
  let cleanup_data := get_cleanup_data st in
  if truthy (VDict cleanup_data) then cleanup_data else [].






(** [f"...{v}..."] *)
Definition fstr (v : value) : string := py_str v.

Definition pollution_keywords : list string :=
  ["harmful algae bloom"; "pollution"; "waste"; "trash"; "debris"; "bottle";
   "bag"].

(** [AWSServices.process_citizen_chat_report]; no external call and no
    handler. [time] is [int(time.time())]. *)
Definition process_citizen_chat_report (time : Z) (now : datetime)
    (chat_message : value) (user_id session_id : value) : exc doc :=
  let session_id :=
    if negb (truthy session_id) then VStr ("session-" +:+ pretty time)
    else session_id in
  let analysis :=
    [("severity", VStr "medium"); ("priority", VStr "normal");
     ("recommended_actions",
        VList [VStr "Investigate location"; VStr "Coordinate cleanup"]);
     ("community_impact", VStr "moderate")] in
  low <- py_lower chat_message ;;
  let is_pollution_report :=
    existsb (fun keyword => contains keyword low) pollution_keywords in
  let response :=
    if is_pollution_report then
      [("message", VStr "Thank you for reporting this harmful algae bloom issue. Our team will investigate and take appropriate action. You'll receive updates on the progress.");
       ("action_required", VBool true);
       ("priority", VStr "medium");
       ("next_steps",
          VList [VStr "Location verification"; VStr "Severity assessment";
                 VStr "Cleanup coordination"])]
    else
      [("message", VStr "Thank you for your message. How can I help you with harmful algae bloom reporting or environmental concerns?");
       ("action_required", VBool false);
       ("priority", VStr "low");
       ("next_steps", VList [])] in
  Ok [("session_id", session_id);
      ("user_message", chat_message);
      ("bot_response", VDict response);
      ("analysis", VDict analysis);
      ("timestamp", VStr (isoformat now))].

(** [AWSServices.invoke_bedrock_agent]: [None] when the body raises. *)
Definition invoke_bedrock_agent (now : datetime) (agent_id user_input : value)
  : option doc :=
  catch
    (user_input_lower <- py_lower user_input ;;
     let '(response, actions_taken) :=
       if contains "pollution" user_input_lower
          && contains "analysis" user_input_lower
       then ("I'll analyze the current pollution data. Based on sensor readings, the Mediterranean Sea shows critical levels at 9.1, requiring immediate cleanup deployment.",
             [VStr "data_analysis"; VStr "alert_generation"])
       else if contains "cleanup" user_input_lower
               && contains "coordinate" user_input_lower
       then ("I'm coordinating cleanup operations. Deploying 3 ocean drones and 2 surface vessels to the Mediterranean Sea hotspot. Estimated completion: 4 hours.",
             [VStr "resource_allocation"; VStr "mission_planning"])
       else if contains "alert" user_input_lower
       then ("Generating high-priority alert for Mediterranean Sea. Notifying authorities and activating emergency response protocols.",
             [VStr "alert_generation"; VStr "authority_notification"])
       else ("I'm your AI assistant for harmful algae bloom management. I can analyze data, coordinate cleanup, and generate alerts. How can I help?",
             [VStr "general_assistance"]) in
     Ok (Some [("agent_id", agent_id);
               ("user_input", user_input);
               ("response", VStr response);
               ("actions_taken", VList actions_taken);
               ("confidence", VFloat (9 # 10));
               ("timestamp", VStr (isoformat now))]))
    (fun _ => None).

(** *** Transcription *)

Definition sample_transcripts : list string :=
  ["I am reporting harmful algae bloom in the Mediterranean Sea. The pollution level appears to be very high with visible harmful algae bloom debris floating on the surface.";
   "There's a lot of harmful algae bloom waste near the Pacific Ocean coastline. I can see bottles, bags, and other debris washing up on the shore.";
   "The Atlantic Ocean area shows concerning levels of microalgae. The water appears contaminated with small harmful algae bloom particles.";
   "I need to report pollution in the Indian Ocean. There are large amounts of harmful algae bloom waste affecting marine life in this area.";
   "The Arctic Ocean region has harmful algae bloom pollution that needs immediate attention. The cold temperatures are preserving the waste."].

Definition not_bytes : exn :=
  Exn TypeError "object supporting the buffer API required".

(** [AWSServices._simulate_transcription] *)
Definition _simulate_transcription (audio_data : value) : exc string :=
  match audio_data with
  | VBytes b =>
      let hash_value := MD5.hexdigest b in
      match int_of_hex hash_value with
      | Some n =>
          let index := n mod Z.of_nat (length sample_transcripts) in
          match sample_transcripts !! Z.to_nat index with
          | Some t => Ok t
          | None => Raise (Exn IndexError "list index out of range")
          end
      | None => Raise (Exn ValueError "invalid literal for int() with base 16")
      end
  | _ => Raise not_bytes
  end.

(** [AWSServices._vocabulary_exists] *)
Definition _vocabulary_exists (aws : cloud) (vocabulary_name : value) : bool :=
  catch
    (response <- transcribe_get_vocabulary aws vocabulary_name ;;
     state <- dict_index "VocabularyState" response ;;
     Ok (eq_str state "READY"))
    (fun _ => false).

(** [AWSServices.create_transcription_job]; [time] and [time'] are the two
    readings of [int(time.time())]. *)
Definition create_transcription_job (aws : cloud) (time time' : Z)
    (now : datetime) (audio_data job_name language_code vocabulary_name : value)
  : option doc :=
  catch
    (let job_name :=
       if negb (truthy job_name)
       then VStr ("transcribe-pollution-" +:+ pretty time) else job_name in
     let bucket_name := "pollution-audio-" +:+ pretty time' in
     _ <- s3_create_bucket aws bucket_name ;;
     let audio_key := "audio/" +:+ fstr job_name +:+ ".mp3" in
     _ <- s3_put_object aws bucket_name audio_key audio_data ;;
     let media_uri := "s3://" +:+ bucket_name +:+ "/" +:+ audio_key in
     let transcribe_params :=
       [("TranscriptionJobName", job_name);
        ("LanguageCode", language_code);
        ("Media", VDict [("MediaFileUri", VStr media_uri)]);
        ("OutputBucketName", VStr bucket_name)] in
     let transcribe_params :=
       if truthy vocabulary_name && _vocabulary_exists aws vocabulary_name
       then dict_set "Settings" (VDict [("VocabularyName", vocabulary_name)])
              transcribe_params
       else transcribe_params in
     transcript <- _simulate_transcription audio_data ;;
     Ok (Some [("job_name", job_name);
               ("status", VStr "COMPLETED");
               ("language_code", language_code);
               ("media_uri", VStr media_uri);
               ("transcript", VStr transcript);
               ("confidence", VFloat (95 # 100));
               ("created_at", VStr (isoformat now))]))
    (fun _ => None).

(** *** IAM roles *)






(** ** routes.py: the request router *)

(** [werkzeug.http.http_date], used by [jsonify] for datetimes, and
    [float(s)] of the interpreter. *)
Variable http_date : datetime -> string.
Variable py_float_of_string : string -> exc Q.

Inductive response :=
| Json (status : nat) (body : value)
  (* redirect(url_for(endpoint, key=text)) *)
| Redirect (endpoint key text : string).

Definition status_of (r : response) : nat :=
  match r with Json status _ => status | Redirect _ _ _ => 302%nat end.

Definition not_serializable : exn :=
  Exn TypeError "Object is not JSON serializable".

(** [jsonify(v)]: the JSON document sent, or the error of the encoder. *)
Fixpoint jsonify (v : value) : exc value :=
  let fix items (l : list value) : exc (list value) :=
    match l with
    | [] => Ok []
    | x :: rest => y <- jsonify x ;; ys <- items rest ;; Ok (y :: ys)
    end in
  let fix members (d : doc) : exc doc :=
    match d with
    | [] => Ok []
    | (k, x) :: rest => y <- jsonify x ;; ys <- members rest ;; Ok ((k, y) :: ys)
    end in
  match v with
  | VObjectId _ | VBytes _ => Raise not_serializable
  | VDatetime d => Ok (VStr (http_date d))
  | VList l => l' <- items l ;; Ok (VList l')
  | VDict d => d' <- members d ;; Ok (VDict d')
  | _ => Ok v
  end.

(** [serialize_mongo_data] *)
Fixpoint serialize_mongo_data (data : value) : value :=
  match data with
  | VList l => VList (serialize_mongo_data <$> l)
  | VDict d => VDict ((fun kv => (fst kv, serialize_mongo_data (snd kv))) <$> d)
  | VObjectId hex => VStr hex
  | VDatetime d => VStr (isoformat d)
  | _ => data
  end.


(** [api_citizen_reports] *)
Definition api_citizen_reports (st : store) : response :=
  catch
    (let reports := get_all_reports st in
     body <- jsonify (serialize_mongo_data (VList (VDict <$> reports))) ;;
     Ok (Json 200 body))
    (fun e => Json 500 (VDict [("error", VStr (message e))])).

(** *** base64.b64encode *)

Definition b64_char (n : N) : ascii :=
  ascii_of_N (if (n <? 26)%N then n + 65
              else if (n <? 52)%N then n + 71
              else if (n <? 62)%N then n - 4
              else if (n =? 62)%N then 43 else 47)%N.

Fixpoint b64encode (b : list Byte.byte) : string :=
  let n x := Byte.to_N x in
  match b with
  | [] => EmptyString
  | [x] =>
      String (b64_char (n x / 4))
        (String (b64_char ((n x mod 4) * 16)) "==")
  | [x; y] =>
      String (b64_char (n x / 4))
        (String (b64_char ((n x mod 4) * 16 + n y / 16))
           (String (b64_char ((n y mod 16) * 4)) "="))
  | x :: y :: z :: rest =>
      String (b64_char (n x / 4))
        (String (b64_char ((n x mod 4) * 16 + n y / 16))
           (String (b64_char ((n y mod 16) * 4 + n z / 64))
              (String (b64_char (n z mod 64)) (b64encode rest))))
  end%N.

(** [data.get(k, dflt)] on what [request.get_json()] returned. *)
Definition py_get (data : value) (k : string) (dflt : value) : exc value :=
  match data with
  | VDict d => Ok (dict_get_default k dflt d)
  | _ => Raise no_get
  end.


(** The body of [for sensor in sensor_data] in [api_ai_alerts]: the alerts
    this sensor adds. *)
Definition alert_of (now : datetime) (sensor : doc) : exc (list value) :=
  level <- dict_index "pollution_level" sensor ;;
  above <- py_gt level 7 ;;
  if above then
    location <- dict_index "location" sensor ;;
    let prompt :=
      "A pollution alert has been triggered for " +:+ fstr location +:+
      " with a pollution level of " +:+ fstr level +:+ ". " +:+
      "Provide a concise, actionable HTML recommendation (3-4 lines, use <p> tags, include relevant emojis) for authorities and cleanup teams. " +:+
      "Focus on immediate actions, resource deployment, and community notification." in
    let agent_result :=
      invoke_bedrock_agent now (VStr "pollution-agent") (VStr prompt) in
    let recommendation_html :=
      match agent_result with
      | Some ((_ :: _) as r) =>
          match dict_get "response" r with
          | Some html => html
          | None => VStr "<p><strong>⚠️ No recommendation available.</strong></p>"
          end
      | _ => VStr "<p><strong>⚠️ No recommendation available.</strong></p>"
      end in
    id <- dict_index "id" sensor ;;
    high <- py_gt level 8 ;;
    timestamp <- dict_index "timestamp" sensor ;;
    Ok [VDict
          [("id", VStr ("alert-" +:+ fstr id));
           ("location", location);
           ("pollution_level", level);
           ("severity", VStr (if high then "high" else "medium"));
           ("message", VStr ("High pollution detected in " +:+ fstr location));
           ("timestamp", timestamp);
           ("actions_required",
              VList [VStr "deploy_cleanup_units"; VStr "notify_authorities"]);
           ("recommendation_html", recommendation_html)]]
  else Ok [].

(** The alerts [api_ai_alerts] builds from the sensors it reads. *)
Definition ai_alerts (clock : nat -> datetime) (now : datetime) (st : store)
  : exc (list value) :=
  let sensor_data := get_iot_sensor_data clock st in
  found <- for_each (alert_of now) sensor_data ;;
  Ok (concat found).


(** *** submit_report *)

Definition is_space (c : ascii) : bool :=
  let n := nat_of_ascii c in
  (Nat.leb 9 n && Nat.leb n 13) || (Nat.leb 28 n && Nat.leb n 32).

Fixpoint lstrip (s : list ascii) : list ascii :=
  match s with
  | c :: rest => if is_space c then lstrip rest else s
  | [] => []
  end.

Definition strip (s : string) : list ascii :=
  rev (lstrip (rev (lstrip (String.list_ascii_of_string s)))).

(** Decimal digits with single underscores between them. *)
Fixpoint digits (s : list ascii) (acc : Z) (after_digit : bool) : option Z :=
  match s with
  | [] => if after_digit then Some acc else None
  | c :: rest =>
      let n := Z.of_nat (nat_of_ascii c) in
      if (48 <=? n) && (n <=? 57) then digits rest (acc * 10 + (n - 48)) true
      else if (n =? 95) && after_digit then digits rest acc false
      else None
  end.

Definition invalid_literal (s : string) : exn :=
  Exn ValueError ("invalid literal for int() with base 10: '" +:+ s +:+ "'").

(** [int(s)] on ASCII text. *)
Definition py_int_of_string (s : string) : exc Z :=
  let parsed :=
    match strip s with
    | "-"%char :: rest => Z.opp <$> digits rest 0 false
    | "+"%char :: rest => digits rest 0 false
    | body => digits body 0 false
    end in
  match parsed with
  | Some z => Ok z
  | None => Raise (invalid_literal s)
  end.

(** An entry of [request.files]. *)
Record upload := Upload {
  filename : string;
  content : list Byte.byte }.

Record request := Request {
  form : gmap string string;
  files : gmap string upload }.

(** The file system and [werkzeug.utils.secure_filename]. *)
Record host := Host {
  getcwd : string;
  secure_filename : string -> string;
  makedirs : string -> exc unit;
  save : string -> list Byte.byte -> exc unit;
  read_file : string -> exc (list Byte.byte) }.

Definition path_join (a b : string) : string := a +:+ "/" +:+ b.

(** [request.form.get(k)] *)
Definition form_get (req : request) (k : string) : value :=
  match form req !! k with Some s => VStr s | None => VNone end.

(** [request.form.get(k, dflt)] *)
Definition form_get_default (req : request) (k dflt : string) : value :=
  match form req !! k with Some s => VStr s | None => VStr dflt end.

(** [lat not in (None, '', 'None')] *)
Definition usable (v : option string) : bool :=
  match v with
  | None => false
  | Some s => negb (String.eqb s "" || String.eqb s "None")
  end.

(** The [lat]/[lng] block: both conversions sit in one [try]. *)
Definition with_geo (req : request) (report_data : doc) : doc :=
  match form req !! "lat", form req !! "lng" with
  | Some lat, Some lng =>
      if usable (Some lat) && usable (Some lng) then
        match py_float_of_string lat with
        | Ok la =>
            let report_data := dict_set "lat" (VFloat la) report_data in
            match py_float_of_string lng with
            | Ok lo => dict_set "lng" (VFloat lo) report_data
            | Raise _ => report_data
            end
        | Raise _ => report_data
        end
      else report_data
  | _, _ => report_data
  end.

(** The image block. *)
Definition with_image (os : host) (aws : cloud) (req : request)
    (report_data : doc) : exc doc :=
  match files req !! "image" with
  | Some image_file =>
      if negb (String.eqb (filename image_file) "") then
        let uploads_dir := path_join (getcwd os) "uploads" in
        _ <- makedirs os uploads_dir ;;
        let name := secure_filename os (filename image_file) in
        let image_path := path_join uploads_dir name in
        _ <- save os image_path (content image_file) ;;
        let report_data :=
          dict_set "image_path" (VStr ("uploads/" +:+ name)) report_data in
        Ok (dict_set "image_analysis"
              (catch (image_bytes <- read_file os image_path ;;
                      Ok (VList (VDict <$> analyze_image aws image_bytes)))
                     (fun _ => VList []))
              report_data)
      else Ok report_data
  | None => Ok report_data
  end.

(** The [try] body of [submit_report] up to the call of the store. *)
Definition build_report (os : host) (aws : cloud) (req : request) : exc doc :=
  level <- match form req !! "pollution_level" with
           | Some s => py_int_of_string s
           | None => Ok 0
           end ;;
  let report_data :=
    [("location", form_get req "location");
     ("description", form_get req "description");
     ("pollution_level", VInt level);
     ("reporter_name", form_get_default req "reporter_name" "Anonymous");
     ("contact", form_get_default req "contact" "");
     ("severity", form_get_default req "severity" "medium")] in
  let report_data := with_geo req report_data in
  report_data <- with_image os aws req report_data ;;
  let location_name := form_get req "location" in
  let report_data :=
    if dict_has "location" report_data then dict_del "location" report_data
    else report_data in
  Ok (dict_set "location_name" location_name report_data).


(** ** Citizen reports and the remaining handlers *)

(** The query [{k: v}] for a text [v]: the field is [v], or an array that
    holds [v]. *)
Definition matches (k v : string) (d : doc) : bool :=
  match dict_get k d with
  | Some (VList l) => existsb (fun x => eq_str x v) l
  | Some x => eq_str x v
  | None => false
  end.

(** [collection.find_one(filter)]: the first match in stored order. *)
Definition find_one (st : store) (c : collection) (flt : doc -> bool)
  : exc (option doc) :=
  if up st then Ok (List.find flt (docs c)) else Raise server_down.

(** [MongoDBManager.store_citizen_report]: the id of the stored report as
    text, or [None]; the third component is [report_data] as the caller sees
    it afterwards. *)
Definition store_citizen_report (now : datetime) (st : store)
    (report_data : doc) : option string * store * doc :=
  let report_data := dict_set "stored_at" (VDatetime now) report_data in
  let report_data :=
    dict_set "status" (dict_get_default "status" (VStr "pending") report_data)
      report_data in
  let '(report', next, r) :=
    insert_one (up st) (next_oid st) (pollution_reports st) report_data in
  match r with
  | Ok c =>
      (Some (py_str (field "_id" report')), set_pollution_reports st next c,
       report')
  | Raise _ =>
      (None, set_pollution_reports st next (pollution_reports st), report')
  end.

(** [MongoDBManager.store_citizen_chat_session]; [chat_sessions] is the
    collection [db['chat_sessions']].  The last component is [chat_data] as
    the caller sees it afterwards. *)
Definition store_citizen_chat_session (now : datetime) (st : store)
    (chat_sessions : collection) (chat_data : doc)
  : option string * store * collection * doc :=
  let chat_data := dict_set "stored_at" (VDatetime now) chat_data in
  let '(chat', next, r) :=
    insert_one (up st) (next_oid st) chat_sessions chat_data in
  match r with
  | Ok c =>
      (Some (py_str (field "_id" chat')), set_sensors st next (sensors st), c,
       chat')
  | Raise _ => (None, set_sensors st next (sensors st), chat_sessions, chat')
  end.

(** [MongoDBManager.get_citizen_report], for a text [report_id]. *)
Definition get_citizen_report (st : store) (report_id : string) : option doc :=
  catch
    (report <- find_one st (pollution_reports st)
                 (matches "report_id" report_id) ;;
     Ok (match report with
         | Some ((_ :: _) as found) => Some (stringify_id found)
         | other => other
         end))
    (fun _ => None).

(** [api_citizen_report_detail] *)
Definition api_citizen_report_detail (st : store) (report_id : string)
  : response :=
  catch
    (match get_citizen_report st report_id with
     | Some ((_ :: _) as report) =>
         body <- jsonify (serialize_mongo_data (VDict report)) ;;
         Ok (Json 200 body)
     | _ => Ok (Json 404 (VDict [("error", VStr "Report not found")]))
     end)
    (fun e => Json 500 (VDict [("error", VStr (message e))])).

(** [api_citizen_chat_report]; [data] is the parsed JSON body,
    [chat_sessions] the collection the sessions go to.  [jsonify] is handed
    the dict that [store_citizen_chat_session] was given, as that call left
    it. *)
Definition api_citizen_chat_report (time : Z) (now now' : datetime)
    (st : store) (chat_sessions : collection) (data : value)
  : response * store * collection :=
  let failed e := Json 500 (VDict [("error", VStr (message e))]) in
  match
    chat_message <- py_get data "message" (VStr "") ;;
    user_id <- py_get data "user_id" VNone ;;
    session_id <- py_get data "session_id" VNone ;;
    if negb (truthy chat_message) then Ok None
    else result <- process_citizen_chat_report time now chat_message user_id
                     session_id ;;
         Ok (Some result)
  with
  | Raise e => (failed e, st, chat_sessions)
  | Ok None =>
      (Json 400 (VDict [("error", VStr "No message provided")]), st,
       chat_sessions)
  | Ok (Some []) =>
      (Json 500 (VDict [("error", VStr "Failed to process chat report")]), st,
       chat_sessions)
  | Ok (Some result) =>
      let '(_, st', chat_sessions', result') :=
        store_citizen_chat_session now' st chat_sessions result in
      (catch (body <- jsonify (VDict result') ;; Ok (Json 200 body)) failed,
       st', chat_sessions')
  end.

(** [AWSServices.process_citizen_voice_report] *)
Definition process_citizen_voice_report (audio_data location reporter_info : value)
  : option doc :=
  catch
    (Raise (Exn NotImplementedError
              "Real voice report processing not implemented."))
    (fun _ => None).

Definition quote : string := String (ascii_of_nat 34) "".

(** The simulated answers of [api_citizen_voice_report]. *)
Definition demo_voice_report (number said analysis : string) (now : datetime)
  : value :=
  VDict [("report_id", VStr ("DEMO-VOICE-" +:+ number));
         ("transcription",
            VStr ("Simulated transcription: " +:+ quote +:+ said +:+ quote));
         ("analysis",
            VStr ("<p><strong>AI Analysis:</strong> " +:+ analysis +:+ "</p>"));
         ("timestamp", VStr (isoformat now))].

(** [api_citizen_voice_report]; [now] is the clock of the store, [now'] the
    one read for the answer. *)
Definition api_citizen_voice_report (now now' : datetime) (st : store)
    (req : request) : response * store :=
  match files req !! "audio" with
  | None =>
      (Json 200
         (demo_voice_report "001" "Plastic pollution detected at the beach."
            "High levels of plastic waste detected. Immediate cleanup recommended."
            now'), st)
  | Some audio_file =>
      if String.eqb (filename audio_file) "" then
        (Json 200
           (demo_voice_report "002" "No audio file selected."
              "No audio provided. Please try again." now'), st)
      else
        let location := form_get_default req "location" "" in
        let reporter_info := form_get_default req "reporter_info" "" in
        let audio_data := VBytes (content audio_file) in
        let fallback :=
          Json 200
            (demo_voice_report "003" "Plastic pollution detected at the river."
               "Moderate plastic waste detected. Monitoring recommended." now') in
        match process_citizen_voice_report audio_data location reporter_info with
        | Some ((_ :: _) as result) =>
            let '(_, st', result') := store_citizen_report now st result in
            (catch (body <- jsonify (VDict result') ;; Ok (Json 200 body))
                   (fun _ => fallback), st')
        | _ => (fallback, st)
        end
  end.

(** [api_bedrock_agent]; [data] is the parsed JSON body. *)
Definition api_bedrock_agent (now : datetime) (data : value) : response :=
  catch
    (prompt <- py_get data "prompt" (VStr "") ;;
     agent_id <- py_get data "agent_id" (VStr "default-agent") ;;
     if negb (truthy prompt) then
       Ok (Json 400 (VDict [("error", VStr "No prompt provided")]))
     else
       match invoke_bedrock_agent now agent_id prompt with
       | Some ((_ :: _) as agent_response) =>
           body <- jsonify (VDict agent_response) ;; Ok (Json 200 body)
       | _ => Ok (Json 500 (VDict [("error", VStr "Agent processing failed")]))
       end)
    (fun e => Json 500 (VDict [("error", VStr (message e))])).

(** [api_analyze_image] *)
Definition api_analyze_image (aws : cloud) (req : request) : response :=
  match files req !! "image" with
  | None => Json 400 (VDict [("error", VStr "No image provided")])
  | Some image_file =>
      if String.eqb (filename image_file) "" then
        Json 400 (VDict [("error", VStr "No image selected")])
      else
        catch
          (let labels := analyze_image aws (content image_file) in
           body <- jsonify (VDict [("labels", VList (VDict <$> labels))]) ;;
           Ok (Json 200 body))
          (fun e => Json 500 (VDict [("error", VStr (message e))]))
  end.

(** The answer of [api_ai_alert_detail] for the sensor that carries the
    alert's id. *)
Definition alert_detail (alert_id : string) (sensor : doc) : exc value :=
  location <- dict_index "location" sensor ;;
  level <- dict_index "pollution_level" sensor ;;
  high <- py_gt level 8 ;;
  timestamp <- dict_index "timestamp" sensor ;;
  Ok (VDict
        [("id", VStr alert_id);
         ("location", location);
         ("pollution_level", level);
         ("severity", VStr (if high then "high" else "medium"));
         ("message",
            VStr (if high then "Critical pollution levels detected"
                  else "High pollution detected"));
         ("timestamp", timestamp);
         ("actions_required",
            VList [VStr "deploy_cleanup_units"; VStr "notify_authorities"]);
         ("ai_analysis",
            VStr (if high
                  then "High concentration of microplastics detected. Immediate cleanup required."
                  else "Elevated pollution detected. Monitoring recommended."));
         ("recommendations",
            VList [VStr "Deploy ocean drones to affected area";
                   VStr "Activate surface vessels for debris collection";
                   VStr "Notify local authorities and environmental agencies"])]).

(** The [for sensor in sensor_data] loop of [api_ai_alert_detail]. *)
Fixpoint alert_detail_loop (alert_id : string) (sensor_data : list doc)
  : exc (option value) :=
  match sensor_data with
  | [] => Ok None
  | sensor :: rest =>
      id <- dict_index "id" sensor ;;
      if String.eqb ("alert-" +:+ fstr id) alert_id
      then detail <- alert_detail alert_id sensor ;; Ok (Some detail)
      else alert_detail_loop alert_id rest
  end.

(** [api_ai_alert_detail] *)
Definition api_ai_alert_detail (clock : nat -> datetime) (st : store)
    (alert_id : string) : response :=
  catch
    (let sensor_data := get_iot_sensor_data clock st in
     found <- alert_detail_loop alert_id sensor_data ;;
     match found with
     | Some detail => body <- jsonify detail ;; Ok (Json 200 body)
     | None => Ok (Json 404 (VDict [("error", VStr "Alert not found")]))
     end)
    (fun e => Json 500 (VDict [("error", VStr (message e))])).

(** [index], up to the call of the store: the sensors shown are handed to
    [store_sensor_data]. *)
Definition index_store_step (clock clock' : nat -> datetime) (st : store)
  : bool * store * list value :=
  let sensor_data := get_iot_sensor_data clock st in
  store_sensor_data clock' st (VDict <$> sensor_data).

(** ** Concrete environments for the examples *)

Definition noon : datetime := Datetime 2025 7 1 12 0 0 0.

(** A clock that advances by one microsecond per reading. *)
Definition ticking (i : nat) : datetime := Datetime 2025 7 1 12 0 0 i.

Definition empty_collection : collection := Collection [] [].

(** A store with nothing in it; [alive] tells whether the server answers. *)
Definition empty_store (alive : bool) : store :=
  Store alive 0 empty_collection empty_collection empty_collection
    empty_collection.

(** A store with a unique index on the sensors' [id], holding one sensor. *)
Definition indexed_store : store :=
  Store true 1
    (Collection
       [[("id", VStr "sensor_001"); ("pollution_level", VFloat (72 # 10));
         ("_id", oid 0)]]
       ["id"])
    empty_collection empty_collection empty_collection.

Definition unreachable : exn :=
  Exn ClientError "Could not connect to the endpoint URL".

(** Every external operation fails. *)
Definition cloud_down : cloud :=
  Cloud (fun _ => Raise unreachable) (fun _ => Raise unreachable)
    (fun _ _ => Raise unreachable) (fun _ => Raise unreachable)
    (Raise unreachable) (Raise unreachable) (Raise unreachable)
    (fun _ => Raise unreachable) (fun _ _ _ => Raise unreachable)
    (fun _ => Raise unreachable).

(** Every external operation succeeds, with little to report. *)
Definition cloud_up : cloud :=
  Cloud (fun _ => Ok (VDict [("content", VList [VDict [("text", VStr "<p>ok</p>")]])]))
    (fun _ => Ok [("thingArn", VStr "arn:aws:iot:::thing/demo")])
    (fun _ _ => Ok [Byte.x49; Byte.x44; Byte.x33])
    (fun _ => Ok [("Labels", VList [])])
    (Ok [("things", VList [])]) (Ok [("Models", VList [])])
    (Ok [("Buckets", VList [])])
    (fun _ => Ok tt) (fun _ _ _ => Ok tt)
    (fun _ => Ok [("VocabularyState", VStr "READY")]).



Definition plain_host : host :=
  Host "/srv/aquapulse" (fun name => name) (fun _ => Ok tt)
    (fun _ _ => Ok tt) (fun _ => Ok []).

(** Two readings that carry the same [id]. *)
Definition repeated_reading : list value :=
  [VDict [("id", VStr "sensor_001"); ("pollution_level", VFloat (72 # 10))];
   VDict [("id", VStr "sensor_001"); ("pollution_level", VFloat (91 # 10))];
   VDict [("id", VStr "sensor_002"); ("pollution_level", VFloat (32 # 10))]].

(** A report form without an image; [level] is the [pollution_level] field. *)
Definition report_form (level : string) : request :=
  Request (<["location" := "Baltic Sea"]>
             (<["description" := "green water"]>
                (<["pollution_level" := level]> ∅)))
          ∅.


(** The store after [initialize_sample_data] has run on an empty one. *)
Definition sample_store : store :=
  (initialize_sample_data ticking ticking (empty_store true)).2.


(** A report form with an image. *)
Definition image_form : request :=
  Request (form (report_form "7"))
    (<["image" := Upload "algae.png" [Byte.x89; Byte.x50; Byte.x4e; Byte.x47]]> ∅).

Definition mission_done : doc :=
  [("status", VStr "completed");
   ("robots", VDict [("ocean_drones", VInt 2); ("surface_vessels", VInt 1)]);
   ("waste_collected", VInt 120)].

Definition mission_running : doc :=
  [("status", VStr "active");
   ("robots", VDict [("ocean_drones", VInt 3)]);
   ("next_deployment", VStr "Baltic Sea")].

(** A store with two cleanup missions. *)
Definition cleanup_store : store :=
  Store true 0 empty_collection empty_collection empty_collection
    (Collection [mission_done; mission_running] []).

(** The same with a mission whose [robots] is a number. *)
Definition broken_cleanup_store : store :=
  Store true 0 empty_collection empty_collection empty_collection
    (Collection [mission_done; [("status", VStr "active"); ("robots", VInt 3)];
                 mission_running] []).

(** A sensor of the Mediterranean at level 9.1. *)
Definition mediterranean : doc :=
  [("id", VStr "sensor_003"); ("location", VStr "Mediterranean Sea");
   ("pollution_level", VFloat (91 # 10));
   ("timestamp", VStr "2025-07-01T12:00:00")].

(** ** Vocabulary of the statements *)

Definition is_dict (v : value) : bool :=
  match v with VDict _ => true | _ => false end.

(** The fields of [c] under a unique index. *)
Definition unique_keys (c : collection) : list string :=
  "_id" :: unique_fields c.




(** A JSON document: no ObjectId, datetime or bytes is left in it. *)
Fixpoint json_safe (v : value) : bool :=
  match v with
  | VObjectId _ | VBytes _ | VDatetime _ => false
  | VList l => forallb json_safe l
  | VDict d => forallb (fun kv => json_safe kv.2) d
  | _ => true
  end.

(** No ObjectId and no datetime is left in [v]. *)
Fixpoint bson_free (v : value) : bool :=
  match v with
  | VObjectId _ | VDatetime _ => false
  | VList l => forallb bson_free l
  | VDict d => forallb (fun kv => bson_free kv.2) d
  | _ => true
  end.

(** The store answers and [c] takes a new record under the ObjectId the
    driver hands out next: [c] has no unique index of its own and no record
    of [c] carries that ObjectId. *)
Definition takes_new (st : store) (c : collection) : bool :=
  up st
  && match unique_fields c with [] => true | _ => false end
  && forallb (fun d0 => negb (same_key "_id" [("_id", oid (next_oid st))] d0))
       (docs c).

(** [k] is absent from [d] or holds an integer. *)
Definition int_or_absent (k : string) (d : doc) : bool :=
  match dict_get k d with None | Some (VInt _) => true | Some _ => false end.

(** The integer under [k], 0 when there is none. *)
Definition int_at (k : string) (d : doc) : Z :=
  match dict_get k d with Some (VInt z) => z | _ => 0 end.

Definition robots_of (mission : doc) : doc :=
  match dict_get "robots" mission with Some (VDict r) => r | _ => [] end.

(** A mission whose [robots], when present, is a dict, and whose counters,
    when present, are integers. *)
Definition tidy_mission (mission : doc) : bool :=
  match dict_get "robots" mission with
  | None | Some (VDict _) => true
  | Some _ => false
  end
  && int_or_absent "ocean_drones" (robots_of mission)
  && int_or_absent "surface_vessels" (robots_of mission)
  && int_or_absent "underwater_units" (robots_of mission)
  && int_or_absent "waste_collected" mission.

(** The sum of [f] over [l]. *)
Definition total {A} (f : A -> Z) (l : list A) : Z :=
  foldr (fun x acc => f x + acc) 0 l.

(** 1 when [mission] has the status [s], 0 otherwise. *)
Definition has_status (s : string) (mission : doc) : Z :=
  if eq_str (field "status" mission) s then 1 else 0.




(** No byte string is left in [v]. *)
Fixpoint no_bytes (v : value) : bool :=
  match v with
  | VBytes _ => false
  | VList l => forallb no_bytes l
  | VDict d => forallb (fun kv => no_bytes kv.2) d
  | _ => true
  end.



(** * Properties *)

(** ** Values and dictionaries *)

(** Induction on values, through lists and dicts. *)
Fixpoint value_induction (P : value -> Prop)
    (HNone : P VNone) (HBool : forall b, P (VBool b))
    (HInt : forall z, P (VInt z)) (HFloat : forall q, P (VFloat q))
    (HStr : forall s, P (VStr s)) (HBytes : forall b, P (VBytes b))
    (HOid : forall h, P (VObjectId h)) (HDate : forall d, P (VDatetime d))
    (HList : forall l, Forall P l -> P (VList l))
    (HDict : forall d, Forall (fun kv => P kv.2) d -> P (VDict d))
    (v : value) {struct v} : P v :=
  let rec := value_induction P HNone HBool HInt HFloat HStr HBytes HOid HDate
               HList HDict in
  match v with
  | VNone => HNone
  | VBool b => HBool b
  | VInt z => HInt z
  | VFloat q => HFloat q
  | VStr s => HStr s
  | VBytes b => HBytes b
  | VObjectId h => HOid h
  | VDatetime d => HDate d
  | VList l =>
      HList l ((fix go (l : list value) : Forall P l :=
                  match l return Forall P l with
                  | [] => @List.Forall_nil value P
                  | x :: r => @List.Forall_cons value P x r (rec x) (go r)
                  end) l)
  | VDict d =>
      HDict d ((fix go (d : doc) : Forall (fun kv => P kv.2) d :=
                  match d return Forall (fun kv => P kv.2) d with
                  | [] => @List.Forall_nil _ (fun kv => P kv.2)
                  | kv :: r =>
                      @List.Forall_cons _ (fun kv => P kv.2) kv r (rec kv.2) (go r)
                  end) d)
  end.

Lemma dict_get_set_eq k v (d : doc) : dict_get k (dict_set k v d) = Some v.
Proof.
  induction d as [|[k' v'] d IH]; simpl.
  - by rewrite String.eqb_refl.
  - destruct (String.eqb k k') eqn:E; simpl.
    + by rewrite String.eqb_refl.
    + by rewrite E.
Qed.

Lemma dict_get_set_ne k k' v (d : doc) :
  k <> k' -> dict_get k (dict_set k' v d) = dict_get k d.
Proof.
  intros Hne. apply String.eqb_neq in Hne.
  induction d as [|[k1 v1] d IH]; simpl.
  - by rewrite Hne.
  - destruct (String.eqb k' k1) eqn:E; simpl.
    + apply String.eqb_eq in E. subst k1. by rewrite Hne.
    + by rewrite IH.
Qed.

Lemma bytes_eqb_refl (b : list Byte.byte) : bytes_eqb b b = true.
Proof.
  induction b as [|x b IH]; [done|]. simpl. rewrite IH, andb_true_r.
  by apply Byte.byte_dec_lb.
Qed.

(** A stored value equals itself. *)
Lemma value_eqb_refl (v : value) : value_eqb v v = true.
Proof.
  induction v as [|b|z|q|s|b|h|d|l IH|d IH] using value_induction.
  - done.
  - by destruct b.
  - simpl. apply Qeq_bool_iff. reflexivity.
  - simpl. apply Qeq_bool_iff. reflexivity.
  - apply String.eqb_refl.
  - apply bytes_eqb_refl.
  - apply String.eqb_refl.
  - simpl. by apply bool_decide_eq_true.
  - simpl. induction IH as [|x l Hx _ IHl]; [done|].
    rewrite Hx. exact IHl.
  - simpl. induction IH as [|[k x] l Hx _ IHl]; [done|].
    simpl in Hx. rewrite String.eqb_refl, Hx. exact IHl.
Qed.

(** ** The status rule *)

Lemma Qgtb_true (a b : Q) : Qgtb a b = true <-> (b < a)%Q.
Proof.
  unfold Qgtb. rewrite negb_true_iff, <- not_true_iff_false, Qle_bool_iff.
  split; [apply Qnot_le_lt | apply Qlt_not_le].
Qed.

Lemma Qgtb_false (a b : Q) : Qgtb a b = false <-> (a <= b)%Q.
Proof. unfold Qgtb. rewrite negb_false_iff. apply Qle_bool_iff. Qed.

Lemma derive_status_critical (level : Q) :
  (8 < level)%Q -> derive_status level = "critical".
Proof. intros H. unfold derive_status. apply Qgtb_true in H. by rewrite H. Qed.

Lemma derive_status_warning (level : Q) :
  (6 < level)%Q -> (level <= 8)%Q -> derive_status level = "warning".
Proof.
  intros H6 H8. unfold derive_status.
  apply Qgtb_true in H6. apply Qgtb_false in H8. by rewrite H8, H6.
Qed.

Lemma derive_status_active (level : Q) :
  (level <= 6)%Q -> derive_status level = "active".
Proof.
  intros H6. unfold derive_status.
  assert (H8 : (level <= 8)%Q) by (eapply Qle_trans; [exact H6 | done]).
  apply Qgtb_false in H6. apply Qgtb_false in H8. by rewrite H8, H6.
Qed.

(** In [seed_db] the stored status is the rule applied to the stored level. *)
Lemma seed_sensor_status locations i r :
  exists level,
    dict_get "pollution_level" (seed_sensor locations i r) = Some (VFloat level)
    /\ dict_get "status" (seed_sensor locations i r)
       = Some (VStr (derive_status level)).
Proof. exists (py_round (sd_level r) 1). by split. Qed.

(** C1, at the inputs where the code departs from it.
    [_generate_dynamic_sensor_data] derives the status from the level before
    rounding and stores the rounded level.  For "Mediterranean Sea" (base 8.5)
    the draw -0.46 gives 8.04 and the draw -0.54 gives 7.96: both records carry
    [pollution_level] 8.0, the first with status "critical", the second with
    status "warning".  So the stored status is not a function of the stored
    level, and the first record has level 8.0 (not above 8) but is critical. *)
Theorem generated_status_uses_unrounded_level
    (timestamp : Z) (clock : nat -> datetime) (i : nat)
    (lat lng dtemp : Q) (micro turb : Z) :
  let record delta :=
    generated_sensor timestamp clock
      (fun _ => GenDraw lat lng delta micro dtemp turb) i "Mediterranean Sea" in
  dict_get "pollution_level" (record (- (46 # 100))%Q) = Some (VFloat 8)
  /\ dict_get "status" (record (- (46 # 100))%Q) = Some (VStr "critical")
  /\ dict_get "pollution_level" (record (- (54 # 100))%Q) = Some (VFloat 8)
  /\ dict_get "status" (record (- (54 # 100))%Q) = Some (VStr "warning")
  /\ derive_status 8 = "warning".
Proof. repeat split. Qed.

(** C8 as amended: for the level 6.4 the rule of [seed_db] derives "warning",
    since 6.4 > 6, and a seeded record whose level is 6.4 stores "warning";
    "active" is derived at the boundary 6.0. *)
Theorem status_of_6_4_is_warning
    (locations : list (string * Q * Q)) (i choice : nat) (dlat dlng dtemp : Q)
    (when : datetime) (micro turb : Z) :
  let record :=
    seed_sensor locations i
      (SeedDraw choice (64 # 10) dlat dlng when micro dtemp turb) in
  derive_status (64 # 10) = "warning"
  /\ dict_get "pollution_level" record = Some (VFloat (32 # 5))
  /\ dict_get "status" record = Some (VStr "warning")
  /\ derive_status 6 = "active".
Proof. repeat split. Qed.

(** C8 as stated fails: the status derived for 6.4 is not "active". *)
Lemma status_of_6_4_not_active :
  ~ (derive_status (64 # 10) = "active"
     /\ derive_status (64 # 10) <> "warning").
Proof. intros [_ H]. by apply H. Qed.

(** ** Predictions *)

(** C6: [get_prediction_data] yields one entry per sensor it reads, in order;
    the entry carries the sensor's level as [current_level],
    [predicted_7days] and [predicted_30days], the trend "stable" and the
    confidence 90. *)
Theorem prediction_copies_current_level (st : store) :
  Forall2
    (fun (sensor prediction : doc) =>
       dict_get "current_level" prediction
         = Some (dict_get_default "pollution_level" (VInt 0) sensor)
       /\ dict_get "predicted_7days" prediction
          = dict_get "current_level" prediction
       /\ dict_get "predicted_30days" prediction
          = dict_get "current_level" prediction
       /\ dict_get "trend" prediction = Some (VStr "stable")
       /\ dict_get "confidence" prediction = Some (VInt 90))
    (get_recent_sensor_data st 10) (get_prediction_data st).
Proof.
  unfold get_prediction_data.
  destruct (get_recent_sensor_data st 10) as [|s l] eqn:E; [constructor|].
  rewrite <- E. clear E.
  induction (get_recent_sensor_data st 10) as [|x xs IH]; simpl.
  - constructor.
  - constructor; [repeat split | exact IH].
Qed.

(** ** Aggregations over empty collections *)


(** ** Inserting sensors under a uniqueness constraint *)

Lemma insert_one_cases alive next c d :
  exists d' next',
    insert_one alive next c d
    = (d', next',
       if negb alive then Raise server_down
       else if conflicts c d'
            then Raise (Exn DuplicateKeyError "E11000 duplicate key error")
            else Ok (push c d'))
    /\ dict_has "_id" d' = true
    /\ (dict_has "_id" d = true -> d' = d /\ next' = next).
Proof.
  unfold insert_one. destruct (dict_has "_id" d) eqn:E.
  - exists d, next. by repeat split.
  - exists (dict_set "_id" (oid next) d), (next + 1)%N.
    split; [done|]. split; [|done]. unfold dict_has. by rewrite dict_get_set_eq.
Qed.

Lemma conflicts_false c d :
  conflicts c d = false ->
  forall k d0, k ∈ unique_keys c -> d0 ∈ docs c -> same_key k d d0 = false.
Proof.
  unfold conflicts. intros H k d0 Hk Hd0.
  apply not_true_iff_false. intros Hs.
  apply not_true_iff_false in H. apply H.
  apply existsb_exists. exists k. split; [by apply list_elem_of_In|].
  apply existsb_exists. exists d0. split; [by apply list_elem_of_In | done].
Qed.

Lemma conflicts_mono c c' d :
  unique_fields c' = unique_fields c ->
  (forall d0, d0 ∈ docs c -> d0 ∈ docs c') ->
  conflicts c d = true -> conflicts c' d = true.
Proof.
  unfold conflicts. intros Hu Hsub H. rewrite Hu.
  apply existsb_exists in H as (k & Hk & H).
  apply existsb_exists in H as (d0 & Hd0 & H).
  apply existsb_exists. exists k. split; [done|].
  apply existsb_exists. exists d0. split; [|done].
  apply list_elem_of_In, Hsub. by apply list_elem_of_In.
Qed.

(** What the loop of [store_sensor_data] does on a reachable store when every
    element is a dict: it finishes normally, appends some records, none of
    which shares a unique key with a record that was there, and leaves every
    element either stored or in conflict with the store. *)
Lemma store_sensor_loop_spec sensor_data : forall clock i st,
  up st = true ->
  Forall (fun v => is_dict v = true) sensor_data ->
  exists st' data' added,
    store_sensor_loop clock i st sensor_data = (Ok tt, st', data')
    /\ up st' = true
    /\ unique_fields (sensors st') = unique_fields (sensors st)
    /\ docs (sensors st') = (docs (sensors st) ++ added)%list
    /\ (forall k d0, k ∈ unique_keys (sensors st) -> d0 ∈ docs (sensors st) ->
        Forall (fun d => same_key k d d0 = false) added)
    /\ Forall (fun v => exists d', v = VDict d'
                 /\ dict_has "_id" d' = true
                 /\ (d' ∈ docs (sensors st')
                     \/ conflicts (sensors st') d' = true)) data'.
Proof.
  induction sensor_data as [|v rest IH]; intros clock i st Hup Hd.
  - exists st, [], []. simpl. rewrite app_nil_r. repeat split; auto.
  - inversion Hd as [|? ? Hv Hrest]; subst.
    destruct v as [| | | | | | | | |sensor]; try discriminate Hv. simpl.
    destruct (insert_one_cases (up st) (next_oid st) (sensors st)
                (dict_set "stored_at" (VDatetime (clock i)) sensor))
      as (d' & next' & -> & Hid & _).
    rewrite Hup. simpl.
    destruct (conflicts (sensors st) d') eqn:Hc; simpl.
    + destruct (IH clock (S i) (set_sensors st next' (sensors st)) Hup Hrest)
        as (st' & data' & added & -> & Hup' & Hu & Hdocs & Hnew & Hall).
      simpl in Hu, Hdocs, Hnew.
      exists st', (VDict d' :: data'), added. repeat split; auto.
      constructor; [|done]. exists d'. do 2 (split; [done|]). right.
      apply (conflicts_mono (sensors st)); [done| |done].
      intros d0 Hd0. rewrite Hdocs. apply elem_of_app. by left.
    + destruct (IH clock (S i) (set_sensors st next' (push (sensors st) d'))
                  Hup Hrest)
        as (st' & data' & added & -> & Hup' & Hu & Hdocs & Hnew & Hall).
      simpl in Hu, Hdocs, Hnew.
      exists st', (VDict d' :: data'), (d' :: added). repeat split; auto.
      * rewrite Hdocs, <- app_assoc. done.
      * intros k d0 Hk Hd0. constructor.
        -- by apply (conflicts_false (sensors st)).
        -- apply Hnew; [done|]. apply elem_of_app. by left.
      * constructor; [|done]. exists d'. do 2 (split; [done|]). left.
        rewrite Hdocs. apply elem_of_app. left. apply elem_of_app. right.
        by apply list_elem_of_singleton.
Qed.



Lemma set_sensors_same (st : store) :
  set_sensors st (next_oid st) (sensors st) = st.
Proof. by destruct st. Qed.

Lemma same_key_restamped k t (d d0 : doc) :
  k <> "stored_at" ->
  same_key k (dict_set "stored_at" t d) d0 = same_key k d d0.
Proof. intros Hk. unfold same_key. by rewrite dict_get_set_ne. Qed.

(** A record that carries an [_id] and is stored, or repeats a stored key,
    is rejected when it is sent again with a new [stored_at]. *)
Lemma restamped_conflicts (c : collection) (d : doc) t :
  "stored_at" ∉ unique_fields c ->
  dict_has "_id" d = true ->
  d ∈ docs c \/ conflicts c d = true ->
  conflicts c (dict_set "stored_at" t d) = true.
Proof.
  intros Hs Hid [Hin|Hc]; unfold conflicts; apply existsb_exists.
  - exists "_id". split; [by left|]. apply existsb_exists. exists d.
    split; [by apply list_elem_of_In|]. rewrite same_key_restamped; [|done].
    unfold same_key. unfold dict_has in Hid.
    destruct (dict_get "_id" d); [apply value_eqb_refl | done].
  - unfold conflicts in Hc. apply existsb_exists in Hc as (k & Hk & Hc).
    exists k. split; [done|]. apply existsb_exists in Hc as (d0 & Hd0 & Hc).
    apply existsb_exists. exists d0. split; [done|].
    rewrite same_key_restamped; [done|]. intros ->.
    destruct Hk as [Hk|Hk]; [done|]. by apply Hs, list_elem_of_In.
Qed.

Lemma store_sensor_loop_again data : forall clock i st,
  up st = true ->
  "stored_at" ∉ unique_fields (sensors st) ->
  Forall (fun v => exists d, v = VDict d
            /\ dict_has "_id" d = true
            /\ (d ∈ docs (sensors st) \/ conflicts (sensors st) d = true))
    data ->
  exists data', store_sensor_loop clock i st data = (Ok tt, st, data').
Proof.
  induction data as [|v rest IH]; intros clock i st Hup Hs Hall.
  - by exists [].
  - inversion Hall as [|? ? (d & -> & Hid & Hd) Hrest]; subst. simpl.
    destruct (insert_one_cases (up st) (next_oid st) (sensors st)
                (dict_set "stored_at" (VDatetime (clock i)) d))
      as (d' & next' & -> & _ & Hsame).
    destruct Hsame as [-> ->].
    { unfold dict_has in *. by rewrite dict_get_set_ne. }
    rewrite Hup, restamped_conflicts by done. simpl.
    rewrite set_sensors_same.
    destruct (IH clock (S i) st Hup Hs Hrest) as (rest' & ->). eauto.
Qed.

(** X1: sending the list again, as the first call left it, stores nothing
    more and still returns [True]. *)
Lemma store_sensor_data_again (clock clock2 : nat -> datetime) (st st' : store)
    (sensor_data data' : list value) :
  up st = true ->
  Forall (fun v => is_dict v = true) sensor_data ->
  "stored_at" ∉ unique_fields (sensors st) ->
  store_sensor_data clock st sensor_data = (true, st', data') ->
  exists data'', store_sensor_data clock2 st' data' = (true, st', data'').
Proof.
  intros Hup Hd Hs Hrun.
  destruct (store_sensor_loop_spec sensor_data clock 0%nat st Hup Hd)
    as (st1 & data1 & added & Hloop & Hup1 & Hu & _ & _ & Hall).
  unfold store_sensor_data in Hrun. rewrite Hloop in Hrun. simpl in Hrun.
  injection Hrun as <- <-.
  destruct (store_sensor_loop_again data1 clock2 0%nat st1 Hup1) as (d2 & H2);
    [by rewrite Hu | done |].
  exists d2. unfold store_sensor_data. by rewrite H2.
Qed.

(** ** The gateway absorbs the failures of the external calls *)


(** ** The simulated transcription *)

Lemma hex_char_value (n : Z) : exists d, hex_value (MD5.hex_char n) = Some d.
Proof.
  unfold MD5.hex_char.
  repeat match goal with
         | |- context [match ?p with _ => _ end] => is_var p; destruct p
         end; eexists; reflexivity.
Qed.

Lemma int_of_hex_hexstring (l : list Z) : forall acc,
  exists n,
    int_of_hex_from acc
      (foldr (fun b s => String (MD5.hex_char (b / 16))
                           (String (MD5.hex_char (b mod 16)) s)) "" l)
    = Some n.
Proof.
  induction l as [|b l IH]; intros acc; simpl; [by eexists|].
  destruct (hex_char_value (b / 16)) as [d1 ->].
  destruct (hex_char_value (b mod 16)) as [d2 ->]. apply IH.
Qed.

Lemma simulate_transcription_ok (audio : list Byte.byte) :
  exists n t,
    int_of_hex (MD5.hexdigest audio) = Some n
    /\ sample_transcripts !! Z.to_nat (n mod 5) = Some t
    /\ _simulate_transcription (VBytes audio) = Ok t.
Proof.
  destruct (int_of_hex_hexstring (MD5.digest audio) 0) as [n Hn].
  assert (Hi : (Z.to_nat (n mod 5) < length sample_transcripts)%nat).
  { simpl. pose proof (Z.mod_pos_bound n 5). lia. }
  apply lookup_lt_is_Some_2 in Hi as [t Ht].
  exists n, t. unfold _simulate_transcription, int_of_hex, MD5.hexdigest.
  rewrite Hn. simpl length. change (Z.of_nat 5) with 5. by rewrite Ht.
Qed.

Lemma create_transcription_job_transcript aws time time' now audio
    job_name language_code vocabulary_name r t :
  _simulate_transcription (VBytes audio) = Ok t ->
  create_transcription_job aws time time' now (VBytes audio)
    job_name language_code vocabulary_name = Some r ->
  dict_get "transcript" r = Some (VStr t).
Proof.
  intros Hsim. unfold create_transcription_job.
  destruct (s3_create_bucket aws _); [|done]. unfold bind at 1.
  destruct (s3_put_object aws _ _ _); [|done]. unfold bind at 1.
  rewrite Hsim. unfold bind, catch. by intros [= <-].
Qed.

Lemma create_transcription_job_uploaded aws time time' now audio
    job_name language_code vocabulary_name t :
  _simulate_transcription (VBytes audio) = Ok t ->
  is_ok (s3_create_bucket aws ("pollution-audio-" +:+ pretty time')) = true ->
  is_ok (s3_put_object aws ("pollution-audio-" +:+ pretty time')
           ("audio/"
            +:+ fstr (if negb (truthy job_name)
                      then VStr ("transcribe-pollution-" +:+ pretty time)
                      else job_name)
            +:+ ".mp3")
           (VBytes audio)) = true ->
  exists r,
    create_transcription_job aws time time' now (VBytes audio)
      job_name language_code vocabulary_name = Some r
    /\ dict_get "transcript" r = Some (VStr t).
Proof.
  intros Hsim Hb Hp. unfold create_transcription_job.
  destruct (s3_create_bucket aws _); [|done]. unfold bind at 1.
  destruct (s3_put_object aws _ _ _); [|done]. unfold bind at 1.
  rewrite Hsim. unfold bind, catch. eexists. split; reflexivity.
Qed.

Lemma create_transcription_job_not_uploaded aws time time' now audio
    job_name language_code vocabulary_name :
  is_ok (s3_create_bucket aws ("pollution-audio-" +:+ pretty time')) = false
  \/ is_ok (s3_put_object aws ("pollution-audio-" +:+ pretty time')
              ("audio/"
               +:+ fstr (if negb (truthy job_name)
                         then VStr ("transcribe-pollution-" +:+ pretty time)
                         else job_name)
               +:+ ".mp3")
              (VBytes audio)) = false ->
  create_transcription_job aws time time' now (VBytes audio)
    job_name language_code vocabulary_name = None.
Proof.
  unfold create_transcription_job.
  destruct (s3_create_bucket aws _); unfold bind at 1; [|done].
  destruct (s3_put_object aws _ _ _); unfold bind at 1; [|done].
  by intros [|].
Qed.

(** C10 as amended: for every byte string [_simulate_transcription] returns
    the sample at the index [int(md5(audio).hexdigest(), 16) % 5], one of
    the five samples.  A transcription job on that audio returns a result
    when the bucket is created and the audio uploaded, and [None] when one
    of the two fails; every result carries that transcript, so any two jobs
    on the same audio that return a result agree on it, whatever the clock,
    the job name, the language, the vocabulary and the rest of the cloud. *)
Theorem transcription_is_deterministic (audio : list Byte.byte) :
  exists n t,
    int_of_hex (MD5.hexdigest audio) = Some n
    /\ sample_transcripts !! Z.to_nat (n mod 5) = Some t
    /\ _simulate_transcription (VBytes audio) = Ok t
    /\ (forall aws time time' now job_name language_code vocabulary_name,
          let name := if negb (truthy job_name)
                      then VStr ("transcribe-pollution-" +:+ pretty time)
                      else job_name in
          let bucket := "pollution-audio-" +:+ pretty time' in
          let uploaded :=
            is_ok (s3_create_bucket aws bucket)
            && is_ok (s3_put_object aws bucket
                        ("audio/" +:+ fstr name +:+ ".mp3") (VBytes audio)) in
          (uploaded = true ->
           exists r,
             create_transcription_job aws time time' now (VBytes audio)
               job_name language_code vocabulary_name = Some r
             /\ dict_get "transcript" r = Some (VStr t))
          /\ (uploaded = false ->
              create_transcription_job aws time time' now (VBytes audio)
                job_name language_code vocabulary_name = None))
    /\ forall aws aws' time1 time1' time2 time2' now now'
              job_name job_name' language_code language_code'
              vocabulary_name vocabulary_name' r r',
         create_transcription_job aws time1 time1' now (VBytes audio)
           job_name language_code vocabulary_name = Some r ->
         create_transcription_job aws' time2 time2' now' (VBytes audio)
           job_name' language_code' vocabulary_name' = Some r' ->
         dict_get "transcript" r = Some (VStr t)
         /\ dict_get "transcript" r' = Some (VStr t).
Proof.
  destruct (simulate_transcription_ok audio) as (n & t & Hn & Ht & Hsim).
  exists n, t. do 3 (split; [done|]). split.
  - intros aws time time' now job_name language_code vocabulary_name
      name bucket uploaded. split.
    + intros [Hb Hp]%andb_true_iff.
      by apply create_transcription_job_uploaded.
    + intros [Hb|Hp]%andb_false_iff;
        apply create_transcription_job_not_uploaded; auto.
  - intros aws aws' time1 time1' time2 time2' now now' job_name job_name'
      language_code language_code' vocabulary_name vocabulary_name' r r' H H'.
    split; eapply create_transcription_job_transcript; eauto.
Qed.

(** ** The request router *)

Lemma for_each_Forall2 {A B} (f : A -> exc B) (l : list A) : forall l',
  for_each f l = Ok l' -> Forall2 (fun x y => f x = Ok y) l l'.
Proof.
  induction l as [|x l IH]; intros l'; simpl.
  - intros [= <-]. constructor.
  - destruct (f x) as [y|] eqn:Hx; [|done]. simpl.
    destruct (for_each f l) as [ys|]; [|done]. simpl.
    intros [= <-]. constructor; auto.
Qed.

Lemma jsonify_list (l : list value) (body : value) :
  jsonify (VList l) = Ok body ->
  exists l', body = VList l' /\ Forall2 (fun x y => jsonify x = Ok y) l l'.
Proof.
  simpl.
  match goal with |- context [bind (?items l)] => set (go := items) end.
  assert (H : forall l l', go l = Ok l' ->
                           Forall2 (fun x y => jsonify x = Ok y) l l').
  { clear. induction l as [|x l IH]; intros l'; simpl.
    - intros [= <-]. constructor.
    - destruct (jsonify x) as [y|] eqn:Hx; [|done]. simpl.
      destruct (go l) as [ys|]; [|done]. simpl.
      intros [= <-]. constructor; auto. }
  destruct (go l) as [l'|] eqn:E; [|done]. simpl. intros [= <-]. eauto.
Qed.

Lemma jsonify_dict (d : doc) (body : value) :
  jsonify (VDict d) = Ok body ->
  exists d', body = VDict d'
    /\ Forall2 (fun x y => x.1 = y.1 /\ jsonify x.2 = Ok y.2) d d'.
Proof.
  simpl.
  match goal with |- context [bind (?members d)] => set (go := members) end.
  assert (H : forall d d', go d = Ok d' ->
            Forall2 (fun x y => x.1 = y.1 /\ jsonify x.2 = Ok y.2) d d').
  { clear. induction d as [|[k x] d IH]; intros d'; simpl.
    - intros [= <-]. constructor.
    - destruct (jsonify x) as [y|] eqn:Hx; [|done]. simpl.
      destruct (go d) as [ys|]; [|done]. simpl.
      intros [= <-]. constructor; auto. }
  destruct (go d) as [d'|] eqn:E; [|done]. simpl. intros [= <-]. eauto.
Qed.



(** [serialize_mongo_data] turns every ObjectId and datetime into text. *)
Lemma serialize_mongo_data_free (v : value) :
  bson_free (serialize_mongo_data v) = true.
Proof.
  induction v as [| | | | | | | |l IH|d IH] using value_induction;
    try done; simpl.
  - induction IH as [|x l Hx _ IHl]; [done|]. simpl. by rewrite Hx.
  - induction IH as [|[k x] l Hx _ IHl]; [done|]. simpl in *. by rewrite Hx.
Qed.







(** An alert is raised for a level above 7 and tagged by the level: "high"
    above 8, "medium" otherwise. *)
Lemma alert_severity (now : datetime) (sensor : doc) (level : value)
    (alerts : list value) :
  dict_get "pollution_level" sensor = Some level ->
  alert_of now sensor = Ok alerts ->
  forall alert, alert ∈ alerts ->
    exists d high,
      alert = VDict d /\ py_gt level 7 = Ok true /\ py_gt level 8 = Ok high
      /\ dict_get "severity" d = Some (VStr (if high then "high" else "medium")).
Proof.
  intros Hl. unfold alert_of, dict_index at 1. rewrite Hl. cbn [bind].
  destruct (py_gt level 7) as [[|]|]; cbn [bind]; try done.
  - destruct (dict_index "location" sensor) as [location|]; [|done].
    cbn [bind]. destruct (dict_index "id" sensor) as [id|]; [|done].
    cbn [bind]. destruct (py_gt level 8) as [high|]; [|done]. cbn [bind].
    destruct (dict_index "timestamp" sensor) as [timestamp|]; [|done].
    cbn [bind]. intros [= <-] alert Ha. apply list_elem_of_singleton in Ha.
    subst. eexists _, high. by repeat split.
  - intros [= <-] alert Ha. by apply elem_of_nil in Ha.
Qed.

(** ** Reports without an image *)




(** * Further properties *)

(** ** store_sensor_data: what stops the loop *)

Lemma store_sensor_loop_stops good : forall clock i st bad rest,
  up st = true ->
  Forall (fun v => is_dict v = true) good ->
  is_dict bad = false ->
  exists st' good',
    store_sensor_loop clock i st good = (Ok tt, st', good')
    /\ store_sensor_loop clock i st (good ++ bad :: rest)%list
       = (Raise not_subscriptable, st', (good' ++ bad :: rest)%list).
Proof.
  induction good as [|v good IH]; intros clock i st bad rest Hup Hd Hbad.
  - exists st, []. split; [done|]. by destruct bad.
  - inversion Hd as [|? ? Hv Hgood]; subst.
    destruct v as [| | | | | | | | |sensor]; try discriminate Hv. simpl.
    destruct (insert_one_cases (up st) (next_oid st) (sensors st)
                (dict_set "stored_at" (VDatetime (clock i)) sensor))
      as (d' & next' & -> & _ & _).
    rewrite Hup. simpl.
    destruct (conflicts (sensors st) d'); simpl.
    + destruct (IH clock (S i) (set_sensors st next' (sensors st)) bad rest
                  Hup Hgood Hbad) as (st' & good' & -> & ->).
      by exists st', (VDict d' :: good').
    + destruct (IH clock (S i) (set_sensors st next' (push (sensors st) d'))
                  bad rest Hup Hgood Hbad) as (st' & good' & -> & ->).
      by exists st', (VDict d' :: good').
Qed.

(** X2: an element that is not a dict stops [store_sensor_data]: it returns
    [False], the records before that element have been handled exactly as if
    they had been sent alone, and the elements after it are not looked at. *)
Theorem store_sensor_data_stops_at_non_dict (clock : nat -> datetime)
    (st : store) (good : list value) (bad : value) (rest : list value) :
  up st = true ->
  Forall (fun v => is_dict v = true) good ->
  is_dict bad = false ->
  exists st' good',
    store_sensor_data clock st good = (true, st', good')
    /\ store_sensor_data clock st (good ++ bad :: rest)%list
       = (false, st', (good' ++ bad :: rest)%list).
Proof.
  intros Hup Hd Hbad.
  destruct (store_sensor_loop_stops good clock 0%nat st bad rest Hup Hd Hbad)
    as (st' & good' & H1 & H2).
  exists st', good'. unfold store_sensor_data. by rewrite H1, H2.
Qed.

(** X3: with the server unreachable the empty list still returns [True];
    a list that starts with a dict returns [False] and stores nothing, and
    only that first dict has been touched (it carries [stored_at] and an
    [_id] afterwards). *)
Theorem store_sensor_data_unreachable (clock : nat -> datetime) (st : store)
    (sensor : doc) (rest : list value) :
  up st = false ->
  store_sensor_data clock st [] = (true, st, [])
  /\ exists st' sensor',
       store_sensor_data clock st (VDict sensor :: rest)
       = (false, st', VDict sensor' :: rest)
       /\ sensors st' = sensors st
       /\ pollution_reports st' = pollution_reports st
       /\ dict_has "stored_at" sensor' = true
       /\ dict_has "_id" sensor' = true.
Proof.
  intros Hup. split; [done|].
  unfold store_sensor_data. simpl.
  destruct (insert_one_cases (up st) (next_oid st) (sensors st)
              (dict_set "stored_at" (VDatetime (clock 0%nat)) sensor))
    as (d' & next' & Hins & Hid & Hsame).
  rewrite Hins, Hup. simpl.
  exists (set_sensors st next' (sensors st)), d'. repeat split; [|done].
  unfold insert_one in Hins.
  destruct (dict_has "_id" (dict_set "stored_at" _ sensor)) eqn:E;
    injection Hins as <- _; unfold dict_has.
  - by rewrite dict_get_set_eq.
  - rewrite dict_get_set_ne by done. by rewrite dict_get_set_eq.
Qed.

(** ** initialize_sample_data runs once *)

Lemma conflicts_empty (c : collection) (d : doc) :
  docs c = [] -> conflicts c d = false.
Proof.
  unfold conflicts. intros ->. simpl.
  by induction (unique_fields c) as [|k l IH].
Qed.

Lemma count_all (st : store) (c : collection) :
  up st = true ->
  count_documents st c (fun _ => true) = Ok (Z.of_nat (length (docs c))).
Proof.
  intros Hup. unfold count_documents. rewrite Hup. do 2 f_equal.
  induction (docs c) as [|d l IH]; [done|].
  rewrite filter_cons. destruct (decide (true = true)); [|done].
  simpl. by rewrite IH.
Qed.

Lemma initialize_on_empty (clock clock' : nat -> datetime) (st : store) :
  up st = true ->
  docs (sensors st) = [] ->
  exists st' d added,
    initialize_sample_data clock clock' st = (true, st')
    /\ up st' = true
    /\ docs (sensors st') = d :: added.
Proof.
  intros Hup He. unfold initialize_sample_data.
  rewrite count_all, He by done. simpl Z.eqb. cbn iota.
  unfold store_sensor_data.
  assert (Hs : exists s0 tl, VDict <$> sample_sensors clock
                             = VDict s0 :: (VDict <$> tl))
    by (by eexists _, _).
  destruct Hs as (s0 & tl & ->). simpl.
  destruct (insert_one_cases (up st) (next_oid st) (sensors st)
              (dict_set "stored_at" (VDatetime (clock' 0%nat)) s0))
    as (d' & next' & -> & _ & _).
  rewrite Hup, conflicts_empty by done. simpl.
  destruct (store_sensor_loop_spec (VDict <$> tl) clock' 1%nat
              (set_sensors st next' (push (sensors st) d')) Hup)
    as (st' & data' & added & -> & Hup' & _ & Hdocs & _).
  { apply Forall_fmap. by apply Forall_true. }
  simpl in Hdocs. rewrite He in Hdocs.
  exists st', d', added. by repeat split.
Qed.

(** X4: [initialize_sample_data] is idempotent: run on the store a first run
    left, it returns the same result and changes nothing (with the server
    unreachable both runs return [False]; otherwise the sensors collection is
    no longer empty and the samples are not stored again). *)
Theorem initialize_sample_data_twice (clock1 clock1' clock2 clock2' : nat -> datetime)
    (st : store) :
  initialize_sample_data clock2 clock2'
    (initialize_sample_data clock1 clock1' st).2
  = initialize_sample_data clock1 clock1' st.
Proof.
  destruct (up st) eqn:Hup.
  - destruct (docs (sensors st)) as [|d l] eqn:Hd.
    + destruct (initialize_on_empty clock1 clock1' st Hup Hd)
        as (st' & d & added & -> & Hup' & Hdocs).
      simpl. unfold initialize_sample_data.
      rewrite count_all, Hdocs by done. done.
    + assert (H : initialize_sample_data clock1 clock1' st = (true, st)).
      { unfold initialize_sample_data. rewrite count_all, Hd by done. done. }
      rewrite H. simpl. unfold initialize_sample_data.
      rewrite count_all, Hd by done. done.
  - assert (H : initialize_sample_data clock1 clock1' st = (false, st)).
    { unfold initialize_sample_data, count_documents. by rewrite Hup. }
    rewrite H. simpl. unfold initialize_sample_data, count_documents.
    by rewrite Hup.
Qed.

(** ** The generators *)

(** X5: [seed_db] builds 120 sensor records, and in each the stored status
    is the threshold rule applied to the stored level: "critical" above 8,
    "warning" above 6 and up to 8, "active" up to 6. *)
Theorem seed_sensors_follow_the_rule (jitter : nat -> Q * Q)
    (draws : nat -> seed_draw) :
  length (seed_sensors jitter draws) = 120%nat
  /\ Forall
       (fun d => exists level,
          dict_get "pollution_level" d = Some (VFloat level)
          /\ ((8 < level)%Q -> dict_get "status" d = Some (VStr "critical"))
          /\ ((6 < level)%Q -> (level <= 8)%Q ->
              dict_get "status" d = Some (VStr "warning"))
          /\ ((level <= 6)%Q -> dict_get "status" d = Some (VStr "active")))
       (seed_sensors jitter draws).
Proof.
  unfold seed_sensors. split; [by rewrite length_fmap, length_seq|].
  apply Forall_fmap, Forall_forall. intros i _.
  exists (py_round (sd_level (draws i)) 1). simpl. split; [done|].
  repeat split; intros; do 2 f_equal.
  - by apply derive_status_critical.
  - by apply derive_status_warning.
  - by apply derive_status_active.
Qed.

Lemma round_half_even_bounds (q : Q) (a b : Z) :
  (inject_Z a <= q)%Q -> (q <= inject_Z b)%Q ->
  (a <= round_half_even q <= b)%Z.
Proof.
  intros Ha Hb. unfold round_half_even.
  pose proof (Qfloor_resp_le _ _ Ha) as Hfa. rewrite Qfloor_Z in Hfa.
  pose proof (Qfloor_resp_le _ _ Hb) as Hfb. rewrite Qfloor_Z in Hfb.
  pose proof (Qfloor_le q) as Hf.
  assert (Hup : (0 < q - inject_Z (Qfloor q))%Q -> (Qfloor q + 1 <= b)%Z).
  { intros Hpos.
    assert (Hlt : (inject_Z (Qfloor q) < inject_Z b)%Q) by lra.
    rewrite <- Zlt_Qlt in Hlt. lia. }
  destruct (Qcompare_spec (q - inject_Z (Qfloor q)) (1 # 2)) as [He|Hl|Hg].
  - destruct (Z.even (Qfloor q)); [lia|].
    split; [lia|]. apply Hup. rewrite He. reflexivity.
  - lia.
  - split; [lia|]. apply Hup. lra.
Qed.

Lemma clamp_bounds (x : Q) :
  (1 # 10 <= Qmax (1 # 10) (Qmin 10 x))%Q
  /\ (Qmax (1 # 10) (Qmin 10 x) <= 10)%Q.
Proof.
  unfold Qmax, Qmin.
  destruct (Qle_bool 10 x) eqn:E1.
  - destruct (Qle_bool (1 # 10) 10) eqn:E2; split; try done.
  - apply not_true_iff_false in E1. rewrite Qle_bool_iff in E1.
    destruct (Qle_bool (1 # 10) x) eqn:E2.
    + apply Qle_bool_iff in E2. split; lra.
    + split; [lra|]. done.
Qed.

(** X6: every record built by [_generate_dynamic_sensor_data] stores a
    [pollution_level] between 0.1 and 10, whatever the random draws are: the
    clamp is applied before rounding and rounding to one decimal keeps the
    bounds. *)
Theorem generated_level_is_clamped (timestamp : Z) (clock : nat -> datetime)
    (draws : nat -> gen_draw) (i : nat) (region : string) :
  exists level,
    dict_get "pollution_level"
      (generated_sensor timestamp clock draws i region) = Some (VFloat level)
    /\ (1 # 10 <= level)%Q /\ (level <= 10)%Q.
Proof.
  eexists. split; [reflexivity|].
  set (x := Qmax (1 # 10) (Qmin 10 (base_pollution region + gd_delta (draws i)))).
  destruct (clamp_bounds (base_pollution region + gd_delta (draws i)))
    as [Hlo Hhi]. fold x in Hlo, Hhi.
  unfold py_round. change (10 ^ Z.of_nat 1)%Z with 10%Z.
  change (Z.to_pos 10) with 10%positive.
  destruct (round_half_even_bounds (x * inject_Z 10) 1 100) as [H1 H100].
  { change (inject_Z 1) with 1%Q. change (inject_Z 10) with 10%Q. lra. }
  { change (inject_Z 100) with 100%Q. change (inject_Z 10) with 10%Q. lra. }
  rewrite !Qred_correct. unfold Qle. simpl. split; lia.
Qed.

(** ** Sensor data for the dashboard *)

Lemma keep_when_fresh k kk x (d : doc) v :
  dict_has kk d = false -> dict_get k d = Some v ->
  dict_get k (dict_set kk x d) = Some v.
Proof.
  intros Hf Hk. rewrite dict_get_set_ne; [done|].
  intros ->. unfold dict_has in Hf. by rewrite Hk in Hf.
Qed.

Lemma dict_has_set_eq k x (d : doc) : dict_has k (dict_set k x d) = true.
Proof. unfold dict_has. by rewrite dict_get_set_eq. Qed.

Lemma dict_has_set_keep k kk x (d : doc) :
  dict_has k d = true -> dict_has k (dict_set kk x d) = true.
Proof.
  intros H. destruct (String.eqb_spec k kk) as [->|Hne].
  - apply dict_has_set_eq.
  - unfold dict_has in *. by rewrite dict_get_set_ne.
Qed.

Lemma fill_defaults_spec (clock : nat -> datetime) (i : nat) (s s' : doc) :
  fill_defaults clock i s = Ok s' ->
  (dict_has "timestamp" s' = true /\ dict_has "microalgae" s' = true
   /\ dict_has "temperature" s' = true /\ dict_has "turbidity" s' = true)
  /\ forall k v, dict_get k s = Some v -> dict_get k s' = Some v.
Proof.
  unfold fill_defaults.
  set (s1 := if dict_has "timestamp" s then s else _).
  assert (H1 : dict_has "timestamp" s1 = true
               /\ forall k v, dict_get k s = Some v -> dict_get k s1 = Some v).
  { subst s1. destruct (dict_has "timestamp" s) eqn:E; [done|].
    split; [apply dict_has_set_eq|]. intros k v. by apply keep_when_fresh. }
  destruct H1 as [Ht1 Hk1].
  destruct (dict_has "microalgae" s1) eqn:Em.
  - cbn [bind].
    set (s3 := if dict_has "temperature" s1 then s1 else _).
    assert (H3 : dict_has "timestamp" s3 = true
                 /\ dict_has "microalgae" s3 = true
                 /\ dict_has "temperature" s3 = true
                 /\ forall k v, dict_get k s1 = Some v -> dict_get k s3 = Some v).
    { subst s3. destruct (dict_has "temperature" s1) eqn:E; [done|].
      repeat split; try by apply dict_has_set_keep.
      - apply dict_has_set_eq.
      - intros k v. by apply keep_when_fresh. }
    destruct H3 as (Ht3 & Hm3 & Hp3 & Hk3).
    destruct (dict_has "turbidity" s3) eqn:Eu.
    + intros [= <-]. repeat split; auto.
    + destruct (py_mul_int _ 10) as [t|]; [|done]. cbn [bind].
      intros [= <-]. repeat split; try by apply dict_has_set_keep.
      * apply dict_has_set_eq.
      * intros k v Hk. apply keep_when_fresh; auto.
  - destruct (py_mul_int _ 1000) as [m|]; [|done]. cbn [bind].
    set (s2 := dict_set "microalgae" m s1).
    assert (H2 : dict_has "timestamp" s2 = true
                 /\ dict_has "microalgae" s2 = true
                 /\ forall k v, dict_get k s1 = Some v -> dict_get k s2 = Some v).
    { subst s2. repeat split.
      - by apply dict_has_set_keep.
      - apply dict_has_set_eq.
      - intros k v. by apply keep_when_fresh. }
    destruct H2 as (Ht2 & Hm2 & Hk2).
    set (s3 := if dict_has "temperature" s2 then s2 else _).
    assert (H3 : dict_has "timestamp" s3 = true
                 /\ dict_has "microalgae" s3 = true
                 /\ dict_has "temperature" s3 = true
                 /\ forall k v, dict_get k s2 = Some v -> dict_get k s3 = Some v).
    { subst s3. destruct (dict_has "temperature" s2) eqn:E; [done|].
      repeat split; try by apply dict_has_set_keep.
      - apply dict_has_set_eq.
      - intros k v. by apply keep_when_fresh. }
    destruct H3 as (Ht3 & Hm3 & Hp3 & Hk3).
    destruct (dict_has "turbidity" s3) eqn:Eu.
    + intros [= <-]. repeat split; auto.
    + destruct (py_mul_int _ 10) as [t|]; [|done]. cbn [bind].
      intros [= <-]. repeat split; try by apply dict_has_set_keep.
      * apply dict_has_set_eq.
      * intros k v Hk. apply keep_when_fresh; auto.
Qed.

Lemma for_each_i_Forall2 {A B} (f : nat -> A -> exc B) (l : list A) :
  forall i l', for_each_i f i l = Ok l' ->
               Forall2 (fun x y => exists j, f j x = Ok y) l l'.
Proof.
  induction l as [|x l IH]; intros i l'; simpl.
  - intros [= <-]. constructor.
  - destruct (f i x) as [y|] eqn:Hx; [|done]. simpl.
    destruct (for_each_i f (S i) l) as [ys|] eqn:E; [|done]. simpl.
    intros [= <-]. constructor; eauto.
Qed.

(** X7: every sensor returned by [get_iot_sensor_data] carries [timestamp],
    [microalgae], [temperature] and [turbidity]; and unless the result is
    empty, it lists the sensors of [get_recent_sensor_data(limit=10)] in
    order, each with every field it already had left unchanged (defaults are
    only added, never written over). *)
Theorem iot_sensors_are_completed (clock : nat -> datetime) (st : store) :
  Forall (fun s => dict_has "timestamp" s = true
                   /\ dict_has "microalgae" s = true
                   /\ dict_has "temperature" s = true
                   /\ dict_has "turbidity" s = true)
    (get_iot_sensor_data clock st)
  /\ (get_iot_sensor_data clock st = []
      \/ Forall2 (fun s s' => forall k v, dict_get k s = Some v ->
                                         dict_get k s' = Some v)
           (get_recent_sensor_data st 10) (get_iot_sensor_data clock st)).
Proof.
  unfold get_iot_sensor_data.
  destruct (get_recent_sensor_data st 10) as [|s0 l] eqn:E; [by split; [|left]|].
  rewrite <- E. clear E.
  destruct (for_each_i (fill_defaults clock) 0 (get_recent_sensor_data st 10))
    as [filled|e] eqn:Hf; cbn [catch]; [|by split; [|left]].
  apply for_each_i_Forall2 in Hf. split; [|right].
  - induction Hf as [|x y l1 l2 [j Hxy] _ IH]; constructor; [|done].
    by apply fill_defaults_spec in Hxy as [? _].
  - induction Hf as [|x y l1 l2 [j Hxy] _ IH]; constructor; [|done].
    by apply fill_defaults_spec in Hxy as [_ ?].
Qed.

(** ** Alerts *)

(** X8: for a sensor whose level is a float, [api_ai_alerts] adds no alert
    when the level is at most 7, and above 7 exactly one alert that carries
    the level and the severity "high" above 8, "medium" otherwise; the loop
    body raises only above 7, when the sensor lacks [location], [id] or
    [timestamp]. *)
Theorem alert_follows_thresholds (now : datetime) (sensor : doc) (level : Q) :
  dict_get "pollution_level" sensor = Some (VFloat level) ->
  match alert_of now sensor with
  | Ok [] => (level <= 7)%Q
  | Ok [VDict d] =>
      (7 < level)%Q
      /\ dict_get "pollution_level" d = Some (VFloat level)
      /\ dict_get "severity" d
         = Some (VStr (if Qgtb level 8 then "high" else "medium"))
  | Ok _ => False
  | Raise _ =>
      (7 < level)%Q
      /\ dict_has "location" sensor && dict_has "id" sensor
         && dict_has "timestamp" sensor = false
  end.
Proof.
  intros Hl. unfold alert_of, dict_index at 1. rewrite Hl. cbn [bind py_gt num_of].
  change (inject_Z 7) with 7%Q. change (inject_Z 8) with 8%Q.
  destruct (Qgtb level 7) eqn:E7.
  - apply Qgtb_true in E7. unfold dict_index, dict_has.
    destruct (dict_get "location" sensor); cbn [bind]; [|by split].
    destruct (dict_get "id" sensor); cbn [bind]; [|by split].
    destruct (dict_get "timestamp" sensor); cbn [bind]; [|by split].
    by repeat split.
  - by apply Qgtb_false in E7.
Qed.

(** ** JSON answers *)

Lemma jsonify_json (v : value) : json_safe v = true -> jsonify v = Ok v.
Proof.
  induction v as [| | | | | | | |l IH|d IH] using value_induction; try done.
  - intros H. simpl in H. simpl.
    match goal with |- context [bind (?items l)] => set (go := items) end.
    assert (Hgo : go l = Ok l).
    { revert H. induction IH as [|x l Hx _ IHl]; [done|]. simpl.
      intros [H1 H2]%andb_true_iff. rewrite (Hx H1). cbn [bind].
      by rewrite (IHl H2). }
    by rewrite Hgo.
  - intros H. simpl in H. simpl.
    match goal with |- context [bind (?members d)] => set (go := members) end.
    assert (Hgo : go d = Ok d).
    { revert H. induction IH as [|[k x] d Hx _ IHd]; [done|]. simpl.
      intros [H1 H2]%andb_true_iff. simpl in Hx. rewrite (Hx H1). cbn [bind].
      by rewrite (IHd H2). }
    by rewrite Hgo.
Qed.

Lemma jsonify_raises (v : value) : forall e,
  jsonify v = Raise e -> e = not_serializable.
Proof.
  induction v as [| | | | | | | |l IH|d IH] using value_induction;
    intros e; try done; try (simpl; congruence).
  - simpl.
    match goal with |- context [bind (?items l)] => set (go := items) end.
    assert (Hgo : forall e, go l = Raise e -> e = not_serializable).
    { induction IH as [|x l Hx _ IHl]; [done|]. simpl. intros e'.
      destruct (jsonify x) as [y|ex] eqn:Ex; cbn [bind].
      - destruct (go l) as [ys|es]; cbn [bind]; [done|].
        intros [= <-]. by apply IHl.
      - intros [= <-]. by apply Hx. }
    destruct (go l) as [l'|el] eqn:El; cbn [bind]; [done|].
    intros [= <-]. by apply Hgo.
  - simpl.
    match goal with |- context [bind (?members d)] => set (go := members) end.
    assert (Hgo : forall e, go d = Raise e -> e = not_serializable).
    { induction IH as [|[k x] d Hx _ IHd]; [done|]. simpl. intros e'.
      destruct (jsonify x) as [y|ex] eqn:Ex; cbn [bind].
      - destruct (go d) as [ys|es]; cbn [bind]; [done|].
        intros [= <-]. by apply IHd.
      - intros [= <-]. by apply Hx. }
    destruct (go d) as [d'|ed] eqn:Ed; cbn [bind]; [done|].
    intros [= <-]. by apply Hgo.
Qed.

Lemma jsonify_no_bytes (v : value) : forall body,
  jsonify v = Ok body -> no_bytes v = true.
Proof.
  induction v as [| | | | | | | |l IH|d IH] using value_induction;
    intros body H; try done.
  - apply jsonify_list in H as (l' & _ & H). simpl.
    induction H as [|x y l l' Hxy _ IHl]; [done|].
    inversion IH; subst. simpl. apply andb_true_iff. split; eauto.
  - apply jsonify_dict in H as (d' & _ & H). simpl.
    induction H as [|x y l l' [_ Hxy] _ IHl]; [done|].
    inversion IH; subst. simpl. apply andb_true_iff. split; eauto.
Qed.

Lemma serialize_keeps_bytes (v : value) :
  no_bytes (serialize_mongo_data v) = no_bytes v.
Proof.
  induction v as [| | | | | | | |l IH|d IH] using value_induction;
    try done; simpl.
  - induction IH as [|x l Hx _ IHl]; [done|]. simpl. rewrite Hx. f_equal.
    exact IHl.
  - induction IH as [|[k x] l Hx _ IHl]; [done|]. simpl in *. rewrite Hx.
    f_equal. exact IHl.
Qed.

Lemma json_safe_split (v : value) :
  json_safe v = bson_free v && no_bytes v.
Proof.
  induction v as [| | | | | | | |l IH|d IH] using value_induction;
    try done; simpl.
  - induction IH as [|x l Hx _ IHl]; [done|]. simpl. rewrite Hx, IHl.
    destruct (bson_free x), (no_bytes x), (forallb bson_free l); by simpl.
  - induction IH as [|[k x] l Hx _ IHl]; [done|]. simpl in *. rewrite Hx, IHl.
    destruct (bson_free x), (no_bytes x),
      (forallb (fun kv => bson_free kv.2) l); by simpl.
Qed.

Lemma jsonify_serialized (v : value) :
  jsonify (serialize_mongo_data v)
  = (if no_bytes v then Ok (serialize_mongo_data v)
     else Raise not_serializable).
Proof.
  destruct (no_bytes v) eqn:E.
  - apply jsonify_json. rewrite json_safe_split, serialize_keeps_bytes, E.
    by rewrite serialize_mongo_data_free.
  - destruct (jsonify (serialize_mongo_data v)) as [body|e] eqn:H.
    + apply jsonify_no_bytes in H. rewrite serialize_keeps_bytes in H.
      congruence.
    + f_equal. by apply jsonify_raises in H.
Qed.

(** X9: [jsonify(serialize_mongo_data(v))] succeeds exactly when [v] holds
    no byte string, and then sends [serialize_mongo_data(v)] itself, in which
    no ObjectId and no datetime is left; serializing a second time changes
    nothing. *)
Theorem serialized_data_is_sent_as_is (v : value) :
  jsonify (serialize_mongo_data v)
  = (if no_bytes v then Ok (serialize_mongo_data v)
     else Raise not_serializable)
  /\ bson_free (serialize_mongo_data v) = true
  /\ serialize_mongo_data (serialize_mongo_data v) = serialize_mongo_data v.
Proof.
  split; [|split].
  - apply jsonify_serialized.
  - apply serialize_mongo_data_free.
  - induction v as [| | | | | | | |l IH|d IH] using value_induction;
      try done; simpl; f_equal.
    + induction IH as [|x l Hx _ IHl]; [done|]. simpl. rewrite Hx. f_equal.
      exact IHl.
    + induction IH as [|[k x] l Hx _ IHl]; [done|]. simpl in *. rewrite Hx.
      f_equal. exact IHl.
Qed.

(** X10: [api_citizen_reports] answers 200 with the serialized reports
    exactly when no report returned by [get_all_reports] holds a byte string,
    500 otherwise; an unreachable store is not an error for it: the answer
    is 200 with an empty list. *)
Theorem citizen_reports_answer (st : store) :
  api_citizen_reports st
  = (if no_bytes (VList (VDict <$> get_all_reports st))
     then Json 200 (serialize_mongo_data (VList (VDict <$> get_all_reports st)))
     else Json 500 (VDict [("error", VStr (message not_serializable))]))
  /\ (up st = false -> api_citizen_reports st = Json 200 (VList [])).
Proof.
  assert (H : api_citizen_reports st
    = (if no_bytes (VList (VDict <$> get_all_reports st))
       then Json 200 (serialize_mongo_data (VList (VDict <$> get_all_reports st)))
       else Json 500 (VDict [("error", VStr (message not_serializable))]))).
  { unfold api_citizen_reports.
    rewrite jsonify_serialized. by destruct (no_bytes _). }
  split; [done|]. intros Hup. rewrite H.
  unfold get_all_reports, find_all. by rewrite Hup.
Qed.

(** ** Chat reports *)

#[local] Arguments hex_fixed : simpl never.

Lemma dict_get_elem k v (d : doc) : dict_get k d = Some v -> (k, v) ∈ d.
Proof.
  induction d as [|[k' v'] d IH]; [done|]. simpl.
  destruct (String.eqb_spec k k') as [->|Hne].
  - intros [= ->]. left.
  - intros H. right. by apply IH.
Qed.

Lemma dict_has_set_ne k kk x (d : doc) :
  k <> kk -> dict_has k (dict_set kk x d) = dict_has k d.
Proof. intros H. unfold dict_has. by rewrite dict_get_set_ne. Qed.

Lemma jsonify_object_id (d : doc) k h :
  (k, VObjectId h) ∈ d -> jsonify (VDict d) = Raise not_serializable.
Proof.
  intros Hin. destruct (jsonify (VDict d)) as [body|e] eqn:H.
  - apply jsonify_dict in H as (d' & _ & H).
    apply list_elem_of_lookup in Hin as [i Hi].
    destruct (Forall2_lookup_l _ _ _ _ _ H Hi) as (y & _ & _ & Hy).
    simpl in Hy. done.
  - f_equal. by apply jsonify_raises in H.
Qed.

Lemma new_id_is_free (st : store) (c : collection) (d : doc) :
  takes_new st c = true ->
  dict_get "_id" d = Some (oid (next_oid st)) -> conflicts c d = false.
Proof.
  unfold takes_new, conflicts. generalize (oid (next_oid st)) as new.
  intros new [[_ Hu]%andb_true_iff Hf]%andb_true_iff Hd.
  destruct (unique_fields c); [|done]. simpl. rewrite orb_false_r.
  induction (docs c) as [|d0 l IH]; [done|]. simpl in *.
  apply andb_true_iff in Hf as [H0 Hl]. rewrite (IH Hl), orb_false_r.
  unfold same_key in *. rewrite Hd. simpl in H0.
  by apply negb_true_iff in H0.
Qed.

Lemma chat_session_gets_an_id now st c (d : doc) :
  dict_has "_id" d = false ->
  let sent := dict_set "_id" (oid (next_oid st))
                (dict_set "stored_at" (VDatetime now) d) in
  store_citizen_chat_session now st c d
  = if negb (up st) || conflicts c sent
    then (None, set_sensors st (next_oid st + 1)%N (sensors st), c, sent)
    else (Some (py_str (oid (next_oid st))),
          set_sensors st (next_oid st + 1)%N (sensors st), push c sent, sent).
Proof.
  intros Hd sent. unfold store_citizen_chat_session, insert_one.
  rewrite dict_has_set_ne, Hd by done. fold sent.
  destruct (up st); simpl; [|done].
  destruct (conflicts c sent); [done|]. unfold field, dict_get_default.
  subst sent. by rewrite dict_get_set_eq.
Qed.

Lemma chat_report_shape time now s user_id session_id :
  exists kv result,
    process_citizen_chat_report time now (VStr s) user_id session_id
    = Ok (kv :: result)
    /\ dict_has "_id" (kv :: result) = false
    /\ dict_get "user_message" (kv :: result) = Some (VStr s).
Proof. do 2 eexists. split; [reflexivity|]. by split. Qed.

Lemma chat_report_raises time now now' st c (d : doc) s :
  dict_get_default "message" (VStr "") d = VStr s -> s <> "" ->
  exists stored,
    dict_get "user_message" stored = Some (VStr s)
    /\ dict_get "_id" stored = Some (oid (next_oid st))
    /\ api_citizen_chat_report time now now' st c (VDict d)
       = (Json 500 (VDict [("error", VStr (message not_serializable))]),
          set_sensors st (next_oid st + 1)%N (sensors st),
          if negb (up st) || conflicts c stored then c else push c stored).
Proof.
  intros Hm Hs.
  destruct (chat_report_shape time now s
              (dict_get_default "user_id" VNone d)
              (dict_get_default "session_id" VNone d))
    as (kv & result & Hr & Hid & Hum).
  exists (dict_set "_id" (oid (next_oid st))
            (dict_set "stored_at" (VDatetime now') (kv :: result))).
  split; [|split].
  - rewrite !dict_get_set_ne by done. exact Hum.
  - apply dict_get_set_eq.
  - unfold api_citizen_chat_report, py_get. cbn [bind]. rewrite Hm.
    assert (Ht : truthy (VStr s) = true).
    { simpl. apply negb_true_iff. by apply String.eqb_neq. }
    rewrite Ht. cbn [negb]. rewrite Hr. cbn [bind].
    rewrite (chat_session_gets_an_id now' st c (kv :: result) Hid).
    set (sent := dict_set "_id" _ _).
    assert (Hj : jsonify (VDict sent) = Raise not_serializable).
    { apply (jsonify_object_id sent "_id" (hex_fixed 24 (next_oid st) "")).
      apply dict_get_elem. apply dict_get_set_eq. }
    destruct (negb (up st) || conflicts c sent); rewrite Hj; done.
Qed.

(** X11: [api_citizen_chat_report] never answers 200.  For a JSON object
    the status is 400 when [message] is missing or falsy and 500 otherwise;
    for any other JSON value it is 500. *)
Theorem chat_report_is_never_answered (time : Z) (now now' : datetime)
    (st : store) (chat_sessions : collection) (data : value) :
  status_of (api_citizen_chat_report time now now' st chat_sessions data).1.1
  = match data with
    | VDict d =>
        if truthy (dict_get_default "message" (VStr "") d) then 500%nat
        else 400%nat
    | _ => 500%nat
    end.
Proof.
  destruct data as [| | | | | | | | |d]; try done.
  destruct (dict_get_default "message" (VStr "") d) as [| | | |s| | | | |]
    eqn:Hm.
  5: { destruct (String.eqb_spec s "") as [->|Hs].
       - unfold api_citizen_chat_report, py_get. cbn [bind]. by rewrite Hm.
       - destruct (chat_report_raises time now now' st chat_sessions d s Hm Hs)
           as (stored & _ & _ & ->).
         simpl. by destruct (String.eqb_spec s ""). }
  all: unfold api_citizen_chat_report, py_get; cbn [bind]; rewrite Hm;
    by destruct (truthy _).
Qed.

(** X12: a chat message that is a non-empty text is stored as a session,
    when the store takes it, and the client is still answered 500: the dict
    given to [jsonify] is the one [insert_one] has put an ObjectId into. *)
Theorem chat_session_is_stored_but_not_answered (time : Z)
    (now now' : datetime) (st : store) (chat_sessions : collection) (d : doc)
    (text : string) :
  dict_get "message" d = Some (VStr text) -> text <> "" ->
  takes_new st chat_sessions = true ->
  exists stored st',
    api_citizen_chat_report time now now' st chat_sessions (VDict d)
    = (Json 500 (VDict [("error", VStr (message not_serializable))]), st',
       push chat_sessions stored)
    /\ dict_get "user_message" stored = Some (VStr text)
    /\ dict_get "_id" stored = Some (oid (next_oid st)).
Proof.
  intros Hd Ht Hnew.
  assert (Hm : dict_get_default "message" (VStr "") d = VStr text).
  { unfold dict_get_default. by rewrite Hd. }
  destruct (chat_report_raises time now now' st chat_sessions d text Hm Ht)
    as (stored & Hum & Hid & ->).
  exists stored, (set_sensors st (next_oid st + 1)%N (sensors st)).
  rewrite (new_id_is_free st chat_sessions stored Hnew Hid).
  unfold takes_new in Hnew.
  apply andb_true_iff in Hnew as [[-> _]%andb_true_iff _]. by simpl.
Qed.

(** ** Citizen reports *)




(** X14: [api_citizen_report_detail] answers 404 "Report not found" when no
    stored report carries the id and also when the store is unreachable;
    for a report that is found it answers 200 with the serialized report,
    or 500 when the report holds a byte string. *)
Theorem report_detail_answer (st : store) (report_id : string) :
  (up st = false ->
   api_citizen_report_detail st report_id
   = Json 404 (VDict [("error", VStr "Report not found")]))
  /\ (Forall (fun d0 => matches "report_id" report_id d0 = false)
        (docs (pollution_reports st)) ->
      api_citizen_report_detail st report_id
      = Json 404 (VDict [("error", VStr "Report not found")]))
  /\ forall report,
       get_citizen_report st report_id = Some report -> report <> [] ->
       api_citizen_report_detail st report_id
       = if no_bytes (VDict report)
         then Json 200 (serialize_mongo_data (VDict report))
         else Json 500 (VDict [("error", VStr (message not_serializable))]).
Proof.
  split; [|split].
  - intros Hup. unfold api_citizen_report_detail, get_citizen_report, find_one.
    by rewrite Hup.
  - intros Hnone. unfold api_citizen_report_detail, get_citizen_report, find_one.
    destruct (up st); [|done]. cbn [bind catch].
    assert (Hf : List.find (matches "report_id" report_id)
                   (docs (pollution_reports st)) = None).
    { induction Hnone as [|d0 l H0 _ IH]; [done|]. simpl. by rewrite H0. }
    by rewrite Hf.
  - intros report Hget Hne. unfold api_citizen_report_detail. rewrite Hget.
    destruct report as [|kv report]; [done|].
    rewrite jsonify_serialized. by destruct (no_bytes _).
Qed.

(** X15: [api_citizen_voice_report] never processes or stores a report:
    whatever the request, the answer is 200 with one of the three simulated
    reports DEMO-VOICE-001, -002 or -003, and the store is left as it
    was. *)
Theorem voice_report_is_always_simulated (now now' : datetime) (st : store)
    (req : request) :
  exists number said analysis,
    api_citizen_voice_report now now' st req
    = (Json 200 (demo_voice_report number said analysis now'), st)
    /\ number = match files req !! "audio" with
                | None => "001"
                | Some audio_file =>
                    if String.eqb (filename audio_file) "" then "002" else "003"
                end.
Proof.
  unfold api_citizen_voice_report.
  destruct (files req !! "audio") as [audio_file|]; [|by eauto].
  destruct (String.eqb (filename audio_file) ""); by eauto.
Qed.

(** ** The agent and the image handlers *)

Lemma json_safe_member (d : doc) k v :
  json_safe (VDict d) = true -> dict_get k d = Some v -> json_safe v = true.
Proof.
  simpl. induction d as [|[k' v'] d IH]; [done|]. simpl.
  intros [H1 H2]%andb_true_iff. destruct (String.eqb k k'); [|by apply IH].
  by intros [= <-].
Qed.

(** X16: [api_bedrock_agent], given a JSON object, answers 400 when
    [prompt] is missing or falsy, 200 with the agent's answer, echoing
    [agent_id] and the prompt, when [prompt] is a non-empty text, and 500
    "Agent processing failed" for any other prompt; given another JSON
    value it answers 500. *)
Theorem bedrock_agent_answer (now : datetime) (data : value) :
  json_safe data = true ->
  match data with
  | VDict d =>
      match dict_get_default "prompt" (VStr "") d with
      | VStr "" => status_of (api_bedrock_agent now data) = 400%nat
      | VStr text =>
          exists body,
            api_bedrock_agent now data = Json 200 (VDict body)
            /\ dict_get "user_input" body = Some (VStr text)
            /\ dict_get "agent_id" body
               = Some (dict_get_default "agent_id" (VStr "default-agent") d)
      | prompt =>
          api_bedrock_agent now data
          = if truthy prompt
            then Json 500 (VDict [("error", VStr "Agent processing failed")])
            else Json 400 (VDict [("error", VStr "No prompt provided")])
      end
  | _ => status_of (api_bedrock_agent now data) = 500%nat
  end.
Proof.
  intros Hsafe. destruct data as [| | | | | | | | |d]; try done.
  assert (Hid : json_safe (dict_get_default "agent_id" (VStr "default-agent") d)
                = true).
  { unfold dict_get_default.
    destruct (dict_get "agent_id" d) as [v|] eqn:E; [|done].
    by apply (json_safe_member d "agent_id"). }
  unfold api_bedrock_agent, py_get. cbn [bind].
  destruct (dict_get_default "prompt" (VStr "") d) as [| | | |s| | | | |];
    try done; try by destruct (truthy _).
  destruct s as [|c s]; [done|].
  change (truthy (VStr (String c s))) with true. cbn [negb].
  unfold invoke_bedrock_agent, py_lower. cbn [bind catch].
  set (low := lower (String c s)).
  destruct (contains "pollution" low && contains "analysis" low);
    [|destruct (contains "cleanup" low && contains "coordinate" low);
      [|destruct (contains "alert" low)]].
  all: cbn [bind catch]; rewrite jsonify_json by (simpl; by rewrite Hid).
  all: cbn [bind catch]; eexists; split; [reflexivity|by split].
Qed.

Lemma concat_Forall {A} (P : A -> Prop) (ls : list (list A)) :
  Forall (Forall P) ls -> Forall P (concat ls).
Proof.
  induction 1 as [|l ls Hl _ IH]; simpl; [constructor|].
  apply Forall_app. by split.
Qed.

(** X17: every entry [analyze_image] returns comes from a label of the
    recognition service whose name holds one of the bloom keywords, and
    carries the name and the confidence the service gave. *)
Theorem image_labels_are_bloom_related (aws : cloud)
    (image_data : list Byte.byte) :
  Forall
    (fun entry => exists label name confidence,
       entry = [("name", VStr name); ("confidence", confidence)]
       /\ py_getitem label "Name" = Ok (VStr name)
       /\ py_getitem label "Confidence" = Ok confidence
       /\ existsb (fun keyword => contains keyword (lower name)) bloom_keywords
          = true
       /\ exists response labels,
            rekognition_detect_labels aws image_data = Ok response
            /\ (l <- dict_index "Labels" response ;; py_iter l) = Ok labels
            /\ label ∈ labels)
    (analyze_image aws image_data).
Proof.
  unfold analyze_image.
  destruct (rekognition_detect_labels aws image_data) as [response|] eqn:Hr;
    [|constructor].
  cbn [bind catch].
  destruct (l <- dict_index "Labels" response ;; py_iter l) as [labels|] eqn:Hl;
    [|constructor].
  cbn [bind catch].
  match goal with |- context [for_each ?f labels] => set (step := f) end.
  destruct (for_each step labels) as [found|] eqn:Hf; [|constructor].
  cbn [bind catch]. apply for_each_Forall2 in Hf. apply concat_Forall.
  match goal with |- Forall (Forall ?Q) _ => set (P := Q) end.
  assert (H : forall l ys, Forall2 (fun x y => step x = Ok y) l ys ->
                (forall x, x ∈ l -> x ∈ labels) -> Forall (Forall P) ys).
  { clear Hf. induction 1 as [|label y l ys Hy _ IH]; intros Hsub; constructor.
    - unfold step in Hy.
      destruct (py_getitem label "Name") as [name|] eqn:Hn; [|done].
      cbn [bind] in Hy. destruct name as [| | | |s| | | | |]; try done.
      cbn [bind py_lower] in Hy.
      destruct (existsb _ bloom_keywords) eqn:Hk.
      + destruct (py_getitem label "Confidence") as [conf|] eqn:Hc; [|done].
        cbn [bind] in Hy. injection Hy as <-. constructor; [|constructor].
        exists label, s, conf. repeat split; try done.
        exists response, labels. repeat split; [done|]. apply Hsub. left.
      + injection Hy as <-. constructor.
    - apply IH. intros x Hx. apply Hsub. by right. }
  by apply (H labels).
Qed.

(** X18: when the recognition service fails for an uploaded image,
    [api_analyze_image] answers 200 with an empty label list, not an
    error. *)
Theorem image_service_failure_is_answered_200 (aws : cloud) (req : request)
    (image_file : upload) (e : exn) :
  files req !! "image" = Some image_file ->
  filename image_file <> "" ->
  rekognition_detect_labels aws (content image_file) = Raise e ->
  api_analyze_image aws req = Json 200 (VDict [("labels", VList [])]).
Proof.
  intros Hf Hn He. unfold api_analyze_image, analyze_image. rewrite Hf.
  apply String.eqb_neq in Hn. rewrite Hn, He. done.
Qed.

(** ** Recent sensors *)

Lemma Qle_bool_total (x y : Q) : Qle_bool y x = false -> Qle_bool x y = true.
Proof.
  intros H. apply Qle_bool_iff. apply Qlt_le_weak, Qnot_le_lt.
  intros Hle. apply Qle_bool_iff in Hle. congruence.
Qed.

Lemma ltb_asym (s t : string) : String.ltb s t = true -> String.ltb t s = false.
Proof.
  unfold String.ltb. rewrite (String.compare_antisym t s).
  by destruct (String.compare s t).
Qed.

Lemma bson_ltb_asym (a b : value) : bson_ltb a b = true -> bson_ltb b a = false.
Proof.
  unfold bson_ltb.
  destruct (Nat.ltb_spec (bson_rank a) (bson_rank b)) as [H1|H1],
    (Nat.ltb_spec (bson_rank b) (bson_rank a)) as [H2|H2]; try done; try lia.
  destruct a, b; simpl in H1, H2; try lia; try done; simpl.
  all: try (intros H%negb_true_iff; apply negb_false_iff;
            by apply Qle_bool_total).
  all: try apply ltb_asym.
  - by destruct b, b0.
  - unfold dt_geb. intros H%negb_true_iff. apply negb_false_iff.
    apply Z.leb_gt in H. apply Z.leb_le. lia.
Qed.

Lemma insert_desc_perm k d (l : list doc) : insert_desc k d l ≡ₚ d :: l.
Proof.
  induction l as [|d' l IH]; simpl; [done|].
  destruct (bson_ltb _ _); [done|]. rewrite IH. apply Permutation_swap.
Qed.

Lemma sort_desc_perm k (l : list doc) : sort_desc k l ≡ₚ l.
Proof.
  unfold sort_desc. induction l as [|d l IH]; simpl; [done|].
  by rewrite insert_desc_perm, IH.
Qed.

Lemma insert_desc_sorted k d (l : list doc) :
  Sorted (fun a b => bson_ltb (field k a) (field k b) = false) l ->
  Sorted (fun a b => bson_ltb (field k a) (field k b) = false)
    (insert_desc k d l).
Proof.
  induction 1 as [|d' l Hl IH Hd]; simpl; [by repeat constructor|].
  destruct (bson_ltb (field k d') (field k d)) eqn:E.
  - constructor; [by constructor|]. constructor. by apply bson_ltb_asym.
  - constructor; [done|].
    destruct l as [|x l]; simpl; [by constructor|].
    destruct (bson_ltb (field k x) (field k d)); constructor; [done|].
    by inversion Hd.
Qed.

Lemma sort_desc_sorted k (l : list doc) :
  Sorted (fun a b => bson_ltb (field k a) (field k b) = false) (sort_desc k l).
Proof.
  unfold sort_desc. induction l as [|d l IH]; simpl; [constructor|].
  by apply insert_desc_sorted.
Qed.

Lemma Sorted_take {A} (R : A -> A -> Prop) (l : list A) : forall n,
  Sorted R l -> Sorted R (take n l).
Proof.
  induction l as [|x l IH]; intros [|n] H; simpl; try constructor.
  - apply IH. by inversion H.
  - inversion H as [|? ? _ Hd]; subst.
    destruct l as [|y l], n as [|n]; simpl; constructor. by inversion Hd.
Qed.

Lemma Sorted_fmap {A} (R : A -> A -> Prop) (f : A -> A) (l : list A) :
  (forall a b, R a b -> R (f a) (f b)) -> Sorted R l -> Sorted R (f <$> l).
Proof.
  intros Hf. induction 1 as [|x l _ IH Hd]; simpl; constructor; [done|].
  destruct Hd; simpl; constructor. by apply Hf.
Qed.

Lemma field_stringify_id k (d : doc) :
  k <> "_id" -> field k (stringify_id d) = field k d.
Proof.
  intros Hk. unfold stringify_id, field, dict_get_default.
  destruct (dict_get "_id" d); [|done]. by rewrite dict_get_set_ne.
Qed.

Lemma cursor_limit_take {A} (n : nat) (l : list A) :
  cursor_limit n l = take (if Nat.eqb n 0 then length l else n) l.
Proof. destruct n; simpl; [by rewrite take_ge|done]. Qed.

(** X19: [get_recent_sensor_data(limit)] returns [min(limit, n)] of the [n]
    stored sensors, all of them when the limit is 0 (for the cursor a
    limit of 0 is no limit), and none when the store is unreachable; each
    is a stored record with its [_id] turned into text, and they come
    newest first: no record is followed by one with a later [stored_at]. *)
Theorem recent_sensors_are_newest_first (st : store) (limit : nat) :
  length (get_recent_sensor_data st limit)
  = (if up st
     then if Nat.eqb limit 0 then length (docs (sensors st))
          else Nat.min limit (length (docs (sensors st)))
     else 0%nat)
  /\ Forall (fun item => exists d, d ∈ docs (sensors st)
                                   /\ item = stringify_id d)
       (get_recent_sensor_data st limit)
  /\ Sorted (fun a b => bson_ltb (field "stored_at" a) (field "stored_at" b)
                        = false)
       (get_recent_sensor_data st limit).
Proof.
  unfold get_recent_sensor_data, find_all.
  destruct (up st); cbn [bind catch]; [|by repeat constructor].
  rewrite cursor_limit_take.
  rewrite (Permutation_length (sort_desc_perm "stored_at" (docs (sensors st)))).
  split; [|split].
  - rewrite length_fmap, length_take.
    rewrite (Permutation_length (sort_desc_perm "stored_at" _)).
    destruct (Nat.eqb limit 0); lia.
  - apply Forall_forall. intros item Hin.
    apply list_elem_of_fmap in Hin as (d & -> & Hd). exists d. split; [|done].
    rewrite <- (sort_desc_perm "stored_at").
    match type of Hd with _ ∈ take ?n ?l => rewrite <- (take_drop n l) end.
    apply elem_of_app. by left.
  - apply Sorted_fmap.
    + intros a b. by rewrite !field_stringify_id.
    + apply Sorted_take, sort_desc_sorted.
Qed.

(** ** The cleanup summary *)

Lemma cleanup_step_tidy (m : doc) a b c w h act nd :
  tidy_mission m = true ->
  cleanup_step (CleanupTotals (VInt a) (VInt b) (VInt c) (VInt w) h act nd) m
  = Ok (CleanupTotals
          (VInt (a + int_at "ocean_drones" (robots_of m)))
          (VInt (b + int_at "surface_vessels" (robots_of m)))
          (VInt (c + int_at "underwater_units" (robots_of m)))
          (VInt (w + int_at "waste_collected" m))
          (h + has_status "completed" m)
          (act + has_status "active" m)
          (if negb (truthy nd) && truthy (field "next_deployment" m)
           then field "next_deployment" m else nd)).
Proof.
  unfold tidy_mission, cleanup_step, has_status. intros H.
  apply andb_true_iff in H as [H Hw]. apply andb_true_iff in H as [H Hu].
  apply andb_true_iff in H as [H Hs]. apply andb_true_iff in H as [Hr Hd].
  assert (Hrobots : match dict_get_default "robots" (VDict []) m with
                    | VDict r => Ok r
                    | _ => Raise no_get
                    end = Ok (robots_of m)).
  { unfold dict_get_default, robots_of.
    by destruct (dict_get "robots" m) as [[]|]. }
  rewrite Hrobots. cbn [bind]. clear Hrobots Hr.
  assert (Hadd : forall k (d : doc) x, int_or_absent k d = true ->
            py_add (VInt x) (dict_get_default k (VInt 0) d)
            = Ok (VInt (x + int_at k d))).
  { intros k d x. unfold int_or_absent, int_at, dict_get_default.
    by destruct (dict_get k d) as [[]|]. }
  cbn [ocean_drones surface_vessels underwater_units waste_collected_today
       hotspots_addressed active_missions next_deployment].
  rewrite !Hadd by done. cbn [bind].
  by destruct (eq_str (field "status" m) "active"),
    (eq_str (field "status" m) "completed"); rewrite ?Z.add_0_r.
Qed.

Lemma cleanup_loop_tidy (missions : list doc) : forall a b c w h act nd,
  Forall (fun m => tidy_mission m = true) missions ->
  cleanup_loop (CleanupTotals (VInt a) (VInt b) (VInt c) (VInt w) h act nd)
    missions
  = Ok (CleanupTotals
          (VInt (a + total (fun m => int_at "ocean_drones" (robots_of m)) missions))
          (VInt (b + total (fun m => int_at "surface_vessels" (robots_of m)) missions))
          (VInt (c + total (fun m => int_at "underwater_units" (robots_of m)) missions))
          (VInt (w + total (int_at "waste_collected") missions))
          (h + total (has_status "completed") missions)
          (act + total (has_status "active") missions)
          (if truthy nd then nd
           else match List.find (fun m => truthy (field "next_deployment" m))
                        missions with
                | Some m => field "next_deployment" m
                | None => nd
                end)).
Proof.
  induction missions as [|m missions IH]; intros a b c w h act nd Ht.
  - simpl. rewrite !Z.add_0_r. by destruct (truthy nd).
  - inversion Ht as [|? ? Hm Hrest]; subst. cbn [cleanup_loop].
    rewrite (cleanup_step_tidy m) by done. cbn [bind].
    rewrite IH by done. unfold total. cbn [foldr List.find].
    rewrite !Z.add_assoc. do 2 f_equal.
    destruct (truthy nd) eqn:En; cbn [negb andb]; [by rewrite En|].
    destruct (truthy (field "next_deployment" m)) eqn:Em; [by rewrite Em|].
    by rewrite En.
Qed.

(** X20: when every stored mission is well formed, [get_cleanup_data]
    counts the missions with status "active" and "completed", sums the
    robots of each kind and the waste collected over all missions, and
    reports the first non-empty [next_deployment], "" when there is none. *)
Theorem cleanup_summary_adds_up (st : store) :
  up st = true ->
  Forall (fun m => tidy_mission m = true) (docs (cleanup_logs st)) ->
  get_cleanup_data st
  = [("active_missions",
        VInt (total (has_status "active") (docs (cleanup_logs st))));
     ("cleanup_robots",
        VDict
          [("ocean_drones",
              VInt (total (fun m => int_at "ocean_drones" (robots_of m))
                      (docs (cleanup_logs st))));
           ("surface_vessels",
              VInt (total (fun m => int_at "surface_vessels" (robots_of m))
                      (docs (cleanup_logs st))));
           ("underwater_units",
              VInt (total (fun m => int_at "underwater_units" (robots_of m))
                      (docs (cleanup_logs st))))]);
     ("waste_collected_today",
        VInt (total (int_at "waste_collected") (docs (cleanup_logs st))));
     ("hotspots_addressed",
        VInt (total (has_status "completed") (docs (cleanup_logs st))));
     ("next_deployment",
        match List.find (fun m => truthy (field "next_deployment" m))
                (docs (cleanup_logs st)) with
        | Some m => field "next_deployment" m
        | None => VStr ""
        end)].
Proof.
  intros Hup Ht. unfold get_cleanup_data, find_all, cleanup_zero.
  rewrite Hup. cbn [bind]. rewrite cleanup_loop_tidy by done.
  cbn [bind catch truthy]. unfold cleanup_summary.
  cbn [ocean_drones surface_vessels underwater_units waste_collected_today
       hotspots_addressed active_missions next_deployment].
  rewrite !Z.add_0_l. do 5 f_equal.
  destruct (List.find _ _) as [m|] eqn:Hf; [|done].
  apply List.find_some in Hf as [_ ->]. done.
Qed.

Lemma cleanup_loop_raises (missions : list doc) (bad : doc) v : forall acc,
  bad ∈ missions -> dict_get "robots" bad = Some v -> is_dict v = false ->
  exists e, cleanup_loop acc missions = Raise e.
Proof.
  induction missions as [|m missions IH]; intros acc Hin Hv Hd.
  - by apply elem_of_nil in Hin.
  - cbn [cleanup_loop].
    destruct (cleanup_step acc m) as [acc'|e] eqn:Hs; cbn [bind]; [|eauto].
    apply elem_of_cons in Hin as [<-|Hin]; [|by apply IH].
    unfold cleanup_step, dict_get_default in Hs. rewrite Hv in Hs.
    by destruct v.
Qed.

(** X21: one stored mission whose [robots] is not a dict makes
    [get_cleanup_data] drop everything it has counted: the summary is the
    all-zero one, whatever the other missions hold. *)
Theorem malformed_mission_zeroes_the_summary (st : store) (mission : doc)
    (robots : value) :
  mission ∈ docs (cleanup_logs st) ->
  dict_get "robots" mission = Some robots ->
  is_dict robots = false ->
  get_cleanup_data st = cleanup_summary cleanup_zero.
Proof.
  intros Hin Hr Hd. unfold get_cleanup_data, find_all.
  destruct (up st); [|done]. cbn [bind].
  destruct (cleanup_loop_raises _ _ _ cleanup_zero Hin Hr Hd) as [e ->].
  done.
Qed.

(** ** Transcription jobs *)

(** X22: for audio given as bytes, [create_transcription_job] returns
    [None] exactly when creating the bucket or uploading the audio fails;
    the vocabulary lookup and the transcription itself never make it
    fail. *)
Theorem transcription_job_fails_only_on_upload (aws : cloud) (time time' : Z)
    (now : datetime) (audio : list Byte.byte)
    (job_name language_code vocabulary_name : value) :
  let name := if negb (truthy job_name)
              then VStr ("transcribe-pollution-" +:+ pretty time)
              else job_name in
  let bucket := "pollution-audio-" +:+ pretty time' in
  create_transcription_job aws time time' now (VBytes audio) job_name
    language_code vocabulary_name = None
  <-> (is_ok (s3_create_bucket aws bucket) = false
       \/ is_ok (s3_put_object aws bucket ("audio/" +:+ fstr name +:+ ".mp3")
                   (VBytes audio)) = false).
Proof.
  intros name bucket. unfold create_transcription_job. fold name. fold bucket.
  destruct (simulate_transcription_ok audio) as (n & t & _ & _ & Ht).
  destruct (s3_create_bucket aws bucket); unfold bind at 1; simpl is_ok.
  - destruct (s3_put_object aws bucket _ (VBytes audio)); unfold bind at 1;
      simpl is_ok.
    + rewrite Ht. unfold bind, catch. split; [done|]. by intros [|].
    + split; [by right|done].
  - split; [by left|done].
Qed.

(** ** Submitted reports *)

Lemma dict_get_del_ne k kk (d : doc) :
  k <> kk -> dict_get k (dict_del kk d) = dict_get k d.
Proof.
  intros Hne. induction d as [|[k' v'] d IH]; [done|]. simpl.
  destruct (String.eqb_spec kk k') as [->|Hk].
  - by destruct (String.eqb_spec k k').
  - simpl. by rewrite IH.
Qed.

Lemma with_geo_other (req : request) (d : doc) k :
  k <> "lat" -> k <> "lng" -> dict_get k (with_geo req d) = dict_get k d.
Proof.
  intros H1 H2. unfold with_geo.
  destruct (form req !! "lat") as [lat|]; [|done].
  destruct (form req !! "lng") as [lng|]; [|done].
  destruct (usable (Some lat) && usable (Some lng)); [|done].
  destruct (py_float_of_string lat); [|done].
  destruct (py_float_of_string lng); by rewrite !dict_get_set_ne.
Qed.

Lemma with_image_other (os : host) (aws : cloud) (req : request) (d img : doc) k :
  k <> "image_path" -> k <> "image_analysis" ->
  with_image os aws req d = Ok img -> dict_get k img = dict_get k d.
Proof.
  intros H1 H2. unfold with_image.
  destruct (files req !! "image") as [f|]; [|by intros [= <-]].
  destruct (negb (String.eqb (filename f) "")); [|by intros [= <-]].
  destruct (makedirs os _); [|done]. cbn [bind].
  destruct (save os _ _); [|done]. cbn [bind].
  intros [= <-]. by rewrite !dict_get_set_ne.
Qed.

Lemma with_geo_head (req : request) (kv : string * value) (d : doc) :
  kv.1 <> "lat" -> kv.1 <> "lng" ->
  with_geo req (kv :: d) = kv :: with_geo req d.
Proof.
  destruct kv as [k v]. simpl. intros H1%String.eqb_neq H2%String.eqb_neq.
  rewrite String.eqb_sym in H1. rewrite String.eqb_sym in H2.
  unfold with_geo.
  destruct (form req !! "lat") as [lat|]; [|done].
  destruct (form req !! "lng") as [lng|]; [|done].
  destruct (usable (Some lat) && usable (Some lng)); [|done].
  destruct (py_float_of_string lat); [|done].
  destruct (py_float_of_string lng); cbn [dict_set]; rewrite H1;
    cbn [dict_set]; by rewrite ?H2.
Qed.

Lemma with_image_head (os : host) (aws : cloud) (req : request)
    (kv : string * value) (d : doc) :
  kv.1 <> "image_path" -> kv.1 <> "image_analysis" ->
  with_image os aws req (kv :: d)
  = (img <- with_image os aws req d ;; Ok (kv :: img)).
Proof.
  destruct kv as [k v]. simpl. intros H1%String.eqb_neq H2%String.eqb_neq.
  rewrite String.eqb_sym in H1. rewrite String.eqb_sym in H2.
  unfold with_image.
  destruct (files req !! "image") as [f|]; [|done].
  destruct (negb (String.eqb (filename f) "")); [|done].
  destruct (makedirs os _); [|done]. cbn [bind].
  destruct (save os _ _); [|done]. cbn [bind dict_set]. rewrite H1.
  cbn [dict_set]. by rewrite H2.
Qed.

(** [build_report] without the detour through the [location] key. *)
Lemma build_report_alt (os : host) (aws : cloud) (req : request) :
  build_report os aws req
  = (level <- match form req !! "pollution_level" with
              | Some s => py_int_of_string s
              | None => Ok 0
              end ;;
     img <- with_image os aws req
              (with_geo req
                 [("description", form_get req "description");
                  ("pollution_level", VInt level);
                  ("reporter_name",
                     form_get_default req "reporter_name" "Anonymous");
                  ("contact", form_get_default req "contact" "");
                  ("severity", form_get_default req "severity" "medium")]) ;;
     Ok (dict_set "location_name" (form_get req "location") img)).
Proof.
  unfold build_report.
  destruct (match form req !! "pollution_level" with
            | Some s => py_int_of_string s
            | None => Ok 0
            end) as [level|]; [|done].
  cbn [bind]. rewrite with_geo_head by done.
  rewrite with_image_head by done.
  destruct (with_image os aws req _) as [img|]; [|done]. cbn [bind]. simpl.
  done.
Qed.

(** X23: every report [submit_report] builds carries the place under
    [location_name] and has no [location] key; the other form fields are
    stored under their own names, [pollution_level] as an integer. *)
Theorem report_location_is_renamed (os : host) (aws : cloud) (req : request)
    (report : doc) :
  build_report os aws req = Ok report ->
  dict_has "location" report = false
  /\ dict_get "location_name" report = Some (form_get req "location")
  /\ dict_get "description" report = Some (form_get req "description")
  /\ dict_get "reporter_name" report
     = Some (form_get_default req "reporter_name" "Anonymous")
  /\ dict_get "contact" report = Some (form_get_default req "contact" "")
  /\ dict_get "severity" report
     = Some (form_get_default req "severity" "medium")
  /\ exists level, dict_get "pollution_level" report = Some (VInt level).
Proof.
  rewrite build_report_alt.
  destruct (match form req !! "pollution_level" with
            | Some s => py_int_of_string s
            | None => Ok 0
            end) as [level|]; [|done].
  cbn [bind].
  destruct (with_image os aws req _) as [img|] eqn:Hi; [|done]. cbn [bind].
  intros [= <-].
  assert (H : forall k, k <> "location_name" -> k <> "image_path" ->
                k <> "image_analysis" -> k <> "lat" -> k <> "lng" ->
                dict_get k (dict_set "location_name" (form_get req "location") img)
                = dict_get k
                    [("description", form_get req "description");
                     ("pollution_level", VInt level);
                     ("reporter_name",
                        form_get_default req "reporter_name" "Anonymous");
                     ("contact", form_get_default req "contact" "");
                     ("severity", form_get_default req "severity" "medium")]).
  { intros k H1 H2 H3 H4 H5. rewrite dict_get_set_ne by done.
    rewrite (with_image_other _ _ _ _ _ _ H2 H3 Hi). by apply with_geo_other. }
  split; [unfold dict_has; by rewrite H|].
  split; [apply dict_get_set_eq|].
  repeat split; try by rewrite H. exists level. by rewrite H.
Qed.


(** X25: an uploaded image is saved before it is analysed, and a failure
    of the analysis does not stop the report: the report carries
    [image_path] under [uploads/] and [image_analysis], which is the list
    [analyze_image] returned, or an empty list when the saved file cannot
    be read. *)
Theorem report_with_image_survives_analysis (os : host) (aws : cloud)
    (req : request) (image_file : upload) (report : doc) :
  files req !! "image" = Some image_file ->
  filename image_file <> "" ->
  build_report os aws req = Ok report ->
  let name := secure_filename os (filename image_file) in
  let image_path := path_join (path_join (getcwd os) "uploads") name in
  save os image_path (content image_file) = Ok tt
  /\ dict_get "image_path" report = Some (VStr ("uploads/" +:+ name))
  /\ dict_get "image_analysis" report
     = Some (match read_file os image_path with
             | Ok image_bytes => VList (VDict <$> analyze_image aws image_bytes)
             | Raise _ => VList []
             end).
Proof.
  intros Hf Hn. rewrite build_report_alt.
  destruct (match form req !! "pollution_level" with
            | Some s => py_int_of_string s
            | None => Ok 0
            end) as [level|]; [|done].
  cbn [bind]. unfold with_image. rewrite Hf.
  apply String.eqb_neq in Hn. rewrite Hn. cbn [negb].
  destruct (makedirs os _); [|done]. cbn [bind].
  destruct (save os _ _) as [[]|]; [|done]. cbn [bind].
  intros [= <-]. cbv zeta. split; [done|].
  rewrite !dict_get_set_ne by done. split.
  - rewrite ?dict_get_set_ne by done. apply dict_get_set_eq.
  - rewrite ?dict_get_set_ne by done. rewrite dict_get_set_eq.
    by destruct (read_file os _).
Qed.

(** ** What a visit of the dashboard stores *)

Lemma stringify_id_get (d : doc) :
  dict_get "_id" (stringify_id d)
  = match dict_get "_id" d with
    | Some v => Some (VStr (py_str v))
    | None => None
    end.
Proof.
  unfold stringify_id. destruct (dict_get "_id" d) eqn:E; [|done].
  apply dict_get_set_eq.
Qed.

Lemma recent_sensor_ids (st : store) (limit : nat) :
  Forall (fun d => exists h, dict_get "_id" d = Some (VObjectId h))
    (docs (sensors st)) ->
  NoDup (dict_get "_id" <$> docs (sensors st)) ->
  Forall (fun r => exists d h,
            d ∈ docs (sensors st)
            /\ dict_get "_id" d = Some (VObjectId h)
            /\ dict_get "_id" r = Some (VStr h)
            /\ forall k v, k <> "_id" -> dict_get k d = Some v ->
                           dict_get k r = Some v)
    (get_recent_sensor_data st limit)
  /\ NoDup (dict_get "_id" <$> get_recent_sensor_data st limit).
Proof.
  intros Hobj Hnd. unfold get_recent_sensor_data, find_all.
  destruct (up st); cbn [bind catch]; [|split; constructor].
  rewrite cursor_limit_take.
  set (n := if Nat.eqb limit 0 then _ else _).
  set (top := take n (sort_desc "stored_at" (docs (sensors st)))).
  assert (Htop : forall d, d ∈ top -> d ∈ docs (sensors st)).
  { intros d Hd. rewrite <- (sort_desc_perm "stored_at").
    rewrite <- (take_drop n (sort_desc "stored_at" (docs (sensors st)))).
    apply elem_of_app. by left. }
  split.
  - apply Forall_forall. intros r Hr.
    apply list_elem_of_fmap in Hr as (d & -> & Hd).
    pose proof (Htop d Hd) as Hin.
    destruct (proj1 (Forall_forall _ _) Hobj d Hin) as [h Hh].
    exists d, h. repeat split; try done.
    + by rewrite stringify_id_get, Hh.
    + intros k v Hk Hv. unfold stringify_id. rewrite Hh.
      by rewrite dict_get_set_ne.
  - assert (Heq : dict_get "_id" <$> (stringify_id <$> top)
                  = (fun o => match o with
                              | Some v => Some (VStr (py_str v))
                              | None => None
                              end) <$> (dict_get "_id" <$> top)).
    { generalize top as l. clear. induction l as [|d l IH]; [done|].
      rewrite !fmap_cons, stringify_id_get. f_equal. exact IH. }
    rewrite Heq. apply NoDup_fmap_2_strong.
    + intros x y Hx Hy.
      apply list_elem_of_fmap in Hx as (dx & -> & Hdx).
      apply list_elem_of_fmap in Hy as (dy & -> & Hdy).
      destruct (proj1 (Forall_forall _ _) Hobj dx (Htop dx Hdx)) as [hx ->].
      destruct (proj1 (Forall_forall _ _) Hobj dy (Htop dy Hdy)) as [hy ->].
      simpl. by intros [= ->].
    + unfold top. rewrite fmap_take.
      apply (sublist_NoDup _ (dict_get "_id" <$> sort_desc "stored_at"
                                                  (docs (sensors st))));
        [|apply sublist_take].
      by rewrite (sort_desc_perm "stored_at").
Qed.

Lemma iot_sensor_ids (clock : nat -> datetime) (st : store) :
  Forall (fun d => exists h, dict_get "_id" d = Some (VObjectId h))
    (docs (sensors st)) ->
  NoDup (dict_get "_id" <$> docs (sensors st)) ->
  Forall (fun shown => exists d h,
            d ∈ docs (sensors st)
            /\ dict_get "_id" d = Some (VObjectId h)
            /\ dict_get "_id" shown = Some (VStr h)
            /\ forall k v, k <> "_id" -> dict_get k d = Some v ->
                           dict_get k shown = Some v)
    (get_iot_sensor_data clock st)
  /\ NoDup (dict_get "_id" <$> get_iot_sensor_data clock st).
Proof.
  intros Hobj Hnd.
  destruct (recent_sensor_ids st 10 Hobj Hnd) as [Hall Hno].
  unfold get_iot_sensor_data.
  destruct (get_recent_sensor_data st 10) as [|s0 l] eqn:E;
    [split; constructor|].
  rewrite <- E in *. clear E.
  destruct (for_each_i (fill_defaults clock) 0 (get_recent_sensor_data st 10))
    as [filled|e] eqn:Hf; cbn [catch]; [|split; constructor].
  apply for_each_i_Forall2 in Hf.
  assert (Hkeep : Forall2 (fun r shown => forall k v, dict_get k r = Some v ->
                                            dict_get k shown = Some v)
                    (get_recent_sensor_data st 10) filled).
  { eapply Forall2_impl; [exact Hf|]. intros r shown [j Hj].
    by apply fill_defaults_spec in Hj as [_ ?]. }
  clear Hf. split.
  - eapply Forall2_Forall_r; [exact Hkeep|].
    eapply Forall_impl; [exact Hall|]. simpl.
    intros r (d & h & Hd & Hh & Hr & Hk) shown Hs. exists d, h.
    repeat split; auto.
  - assert (Hids : dict_get "_id" <$> filled
                   = dict_get "_id" <$> get_recent_sensor_data st 10).
    { clear Hno. induction Hkeep as [|r shown l1 l2 Hrs _ IH]; [done|].
      inversion Hall as [|? ? (d & h & _ & _ & Hr & _) Hall']; subst.
      simpl. rewrite (Hrs _ _ Hr), Hr. f_equal. by apply IH. }
    by rewrite Hids.
Qed.

Lemma conflicts_text_id (c : collection) (d : doc) (h : string) :
  unique_fields c = [] -> dict_get "_id" d = Some (VStr h) ->
  Forall (fun d0 => dict_get "_id" d0 <> Some (VStr h)) (docs c) ->
  conflicts c d = false.
Proof.
  unfold conflicts. intros -> Hd Hall. simpl. rewrite orb_false_r.
  induction Hall as [|d0 l H0 _ IH]; [done|]. simpl. rewrite IH, orb_false_r.
  unfold same_key. rewrite Hd.
  destruct (dict_get "_id" d0) as [[]|]; try done. simpl.
  apply String.eqb_neq. intros <-. done.
Qed.

Lemma store_sensor_loop_fresh (l : list doc) : forall clock i st,
  up st = true -> unique_fields (sensors st) = [] ->
  Forall (fun e => exists h, dict_get "_id" e = Some (VStr h)) l ->
  NoDup (dict_get "_id" <$> l) ->
  Forall (fun d0 => dict_get "_id" d0 ∉ dict_get "_id" <$> l)
    (docs (sensors st)) ->
  exists st' copies,
    store_sensor_loop clock i st (VDict <$> l) = (Ok tt, st', VDict <$> copies)
    /\ docs (sensors st') = (docs (sensors st) ++ copies)%list
    /\ Forall2 (fun e copy => exists t,
                  copy = dict_set "stored_at" (VDatetime t) e) l copies.
Proof.
  induction l as [|e l IH]; intros clock i st Hup Hu Hids Hnd Hfresh.
  - exists st, []. simpl. rewrite app_nil_r. by repeat split.
  - inversion Hids as [|? ? [h Hh] Hids']; subst.
    rewrite fmap_cons in Hnd. apply NoDup_cons in Hnd as [Hnot Hnd].
    set (stamped := dict_set "stored_at" (VDatetime (clock i)) e).
    assert (Hsid : dict_get "_id" stamped = Some (VStr h)).
    { unfold stamped. by rewrite dict_get_set_ne. }
    destruct (insert_one_cases (up st) (next_oid st) (sensors st) stamped)
      as (d' & next' & Hins & _ & Hsame).
    destruct Hsame as [-> ->]; [unfold dict_has; by rewrite Hsid|].
    assert (Hc : conflicts (sensors st) stamped = false).
    { apply (conflicts_text_id _ _ h); [done..|].
      eapply Forall_impl; [exact Hfresh|]. simpl. intros d0 H0 Heq.
      apply H0. rewrite Heq, <- Hh. left. }
    assert (Hins' : insert_one (up st) (next_oid st) (sensors st) stamped
                    = (stamped, next_oid st, Ok (push (sensors st) stamped))).
    { rewrite Hins, Hup, Hc. done. }
    clear Hins.
    destruct (IH clock (S i)
                (set_sensors st (next_oid st) (push (sensors st) stamped)))
      as (st' & copies & Hloop & Hdocs & Hcopies); try done.
    { simpl. apply Forall_app. split.
      - eapply Forall_impl; [exact Hfresh|]. simpl. intros d0 H0 Hin.
        apply H0. by right.
      - constructor; [|constructor]. by rewrite Hsid, <- Hh. }
    exists st', (stamped :: copies). split; [|split].
    + rewrite !fmap_cons. cbn [store_sensor_loop]. fold stamped.
      rewrite Hins', Hloop. done.
    + rewrite Hdocs. simpl. by rewrite <- app_assoc.
    + constructor; [by exists (clock i)|done].
Qed.

(** X26: a visit of the dashboard stores again the sensors it shows.  On
    a store whose sensors carry the ObjectIds the driver gave them, [index]
    hands the sensors of [get_iot_sensor_data], whose [_id] is now text, to
    [store_sensor_data], and each of them is inserted as a new record: the
    collection grows by one copy per sensor shown, a copy differing from
    the stored record in [_id], [stored_at] and the defaults filled in. *)
Theorem dashboard_visit_copies_recent_sensors (clock clock' : nat -> datetime)
    (st : store) :
  up st = true -> unique_fields (sensors st) = [] ->
  Forall (fun d => exists h, dict_get "_id" d = Some (VObjectId h))
    (docs (sensors st)) ->
  NoDup (dict_get "_id" <$> docs (sensors st)) ->
  exists st' copies,
    index_store_step clock clock' st = (true, st', VDict <$> copies)
    /\ docs (sensors st') = (docs (sensors st) ++ copies)%list
    /\ Forall2 (fun shown copy => exists t,
                  copy = dict_set "stored_at" (VDatetime t) shown)
         (get_iot_sensor_data clock st) copies
    /\ Forall (fun shown => exists d h,
                 d ∈ docs (sensors st)
                 /\ dict_get "_id" d = Some (VObjectId h)
                 /\ dict_get "_id" shown = Some (VStr h)
                 /\ forall k v, k <> "_id" -> dict_get k d = Some v ->
                                dict_get k shown = Some v)
         (get_iot_sensor_data clock st).
Proof.
  intros Hup Hu Hobj Hnd.
  destruct (iot_sensor_ids clock st Hobj Hnd) as [Hall Hno].
  destruct (store_sensor_loop_fresh (get_iot_sensor_data clock st) clock' 0 st)
    as (st' & copies & Hloop & Hdocs & Hcopies); try done.
  - eapply Forall_impl; [exact Hall|]. simpl.
    intros shown (d & h & _ & _ & Hs & _). eauto.
  - eapply Forall_impl; [exact Hobj|]. simpl. intros d0 [h0 H0] Hin.
    apply list_elem_of_fmap in Hin as (shown & Heq & Hin).
    destruct (proj1 (Forall_forall _ _) Hall shown Hin)
      as (d & h & _ & _ & Hs & _).
    congruence.
  - exists st', copies. unfold index_store_step, store_sensor_data.
    rewrite Hloop. by repeat split.
Qed.

(** ** The detail of an alert *)

Lemma alert_detail_loop_skip (alert_id : string) (before rest : list doc) :
  Forall (fun s => exists i, dict_get "id" s = Some i
                             /\ "alert-" +:+ fstr i <> alert_id) before ->
  alert_detail_loop alert_id (before ++ rest)%list
  = alert_detail_loop alert_id rest.
Proof.
  induction 1 as [|s before (i & Hi & Hne) _ IH]; [done|].
  cbn [app alert_detail_loop]. unfold dict_index. rewrite Hi. cbn [bind].
  apply String.eqb_neq in Hne. by rewrite Hne.
Qed.

(** X27: [api_ai_alert_detail] answers for the first sensor of
    [get_iot_sensor_data] whose id gives the alert id, whatever its level:
    there is no threshold at 7 here, so a sensor that [api_ai_alerts] does
    not list has a detail too.  The answer is 200 with the sensor's
    location and level, and the severity "high" above 8, "medium"
    otherwise. *)
Theorem alert_detail_has_no_threshold (clock : nat -> datetime) (st : store)
    (alert_id : string) (before after : list doc) (sensor : doc)
    (id location timestamp : value) (level : Q) :
  get_iot_sensor_data clock st = (before ++ sensor :: after)%list ->
  Forall (fun s => exists i, dict_get "id" s = Some i
                             /\ "alert-" +:+ fstr i <> alert_id) before ->
  dict_get "id" sensor = Some id -> "alert-" +:+ fstr id = alert_id ->
  dict_get "location" sensor = Some location ->
  dict_get "pollution_level" sensor = Some (VFloat level) ->
  dict_get "timestamp" sensor = Some timestamp ->
  json_safe location = true -> json_safe timestamp = true ->
  exists detail,
    api_ai_alert_detail clock st alert_id = Json 200 (VDict detail)
    /\ dict_get "location" detail = Some location
    /\ dict_get "pollution_level" detail = Some (VFloat level)
    /\ dict_get "severity" detail
       = Some (VStr (if Qgtb level 8 then "high" else "medium")).
Proof.
  intros Hdata Hbefore Hid Haid Hloc Hlevel Htime Hsl Hst.
  unfold api_ai_alert_detail. rewrite Hdata.
  rewrite (alert_detail_loop_skip _ _ _ Hbefore). cbn [alert_detail_loop].
  unfold dict_index at 1. rewrite Hid. cbn [bind].
  subst alert_id. rewrite String.eqb_refl.
  unfold alert_detail, dict_index. rewrite Hloc, Hlevel, Htime.
  cbn [bind py_gt num_of]. change (inject_Z 8) with 8%Q.
  rewrite jsonify_json.
  - cbn [bind catch]. eexists. split; [reflexivity|]. by repeat split.
  - simpl. rewrite Hsl, Hst. by destruct (Qgtb level 8).
Qed.

End AquaPulse.

(** * The model at concrete inputs *)

(** ** Sanity of the library functions *)

Example md5_of_empty :
  MD5.hexdigest [] = "d41d8cd98f00b204e9800998ecf8427e".
Proof. vm_compute. reflexivity. Qed.

Example md5_of_abc :
  MD5.hexdigest [Byte.x61; Byte.x62; Byte.x63]
  = "900150983cd24fb0d6963f7d28e17f72".
Proof. vm_compute. reflexivity. Qed.

Example md5_of_two_blocks :
  MD5.hexdigest (replicate 64 Byte.x7a) = "3ecc49f9d9d6c263b4f0de7fc3f38aed".
Proof. vm_compute. reflexivity. Qed.

Example b64encode_pads :
  b64encode [Byte.x4d; Byte.x61; Byte.x6e] = "TWFu"
  /\ b64encode [Byte.x4d; Byte.x61] = "TWE="
  /\ b64encode [Byte.x4d] = "TQ==".
Proof. repeat split. Qed.

Example py_int_of_string_cases :
  py_int_of_string " 42 " = Ok 42
  /\ py_int_of_string "-1_000" = Ok (-1000)
  /\ is_ok (py_int_of_string "1__0") = false
  /\ is_ok (py_int_of_string "abc") = false.
Proof. repeat split. Qed.

(** ** Sensor status in the sample data *)

(** [_generate_dynamic_sensor_data] with the draw -0.46 for every region, on
    an empty store: the "Mediterranean Sea" record is returned, and stored,
    with level 8.0 and status "critical". *)
Example generated_record_is_critical_at_8 :
  let draws (_ : nat) := GenDraw 40 15 (- (46 # 100)) 0 0 0 in
  let shown d :=
    (dict_get "location" d, dict_get "pollution_level" d, dict_get "status" d) in
  let '(returned, st) :=
    _generate_dynamic_sensor_data 1700000000 ticking ticking draws
      (empty_store true) in
  returned !! 2%nat ≫= (fun v => match v with
                                 | VDict d => Some (shown d)
                                 | _ => None
                                 end)
  = Some (Some (VStr "Mediterranean Sea"), Some (VFloat 8),
          Some (VStr "critical"))
  /\ shown <$> docs (sensors st) !! 2%nat
     = Some (Some (VStr "Mediterranean Sea"), Some (VFloat 8),
             Some (VStr "critical")).
Proof. vm_compute. split; reflexivity. Qed.

(** An alert for a sensor whose level is 9.1 is tagged "high". *)
Lemma alert_for_9_1_is_high (py_repr : value -> string) (now : datetime)
    (sensor : doc) (alerts : list value) :
  dict_get "pollution_level" sensor = Some (VFloat (91 # 10)) ->
  alert_of py_repr now sensor = Ok alerts ->
  forall alert, alert ∈ alerts ->
    exists d, alert = VDict d /\ dict_get "severity" d = Some (VStr "high").
Proof.
  intros Hl Ha alert Hin.
  destruct (alert_severity py_repr now sensor _ alerts Hl Ha alert Hin)
    as (d & high & -> & _ & Hhigh & Hsev).
  exists d. split; [done|]. by inversion Hhigh; subst.
Qed.

(** C7, at the input where the code departs from it: on an empty, reachable
    store [initialize_sample_data] stores the "Mediterranean Sea" sensor with
    level 9.1 and status "warning", while the rule of [seed_db] derives
    "critical" for 9.1; the alert built for that record is tagged "high" and
    the one for the 7.2 record "medium". *)
Theorem sample_mediterranean_is_stored_as_warning :
  let '(ok, st) := initialize_sample_data ticking ticking (empty_store true) in
  let shown d :=
    (dict_get "location" d, dict_get "pollution_level" d, dict_get "status" d) in
  let tagged alert :=
    match alert with
    | VDict d => (dict_get "location" d, dict_get "severity" d)
    | _ => (None, None)
    end in
  ok = true
  /\ shown <$> docs (sensors st) !! 2%nat
     = Some (Some (VStr "Mediterranean Sea"), Some (VFloat (91 # 10)),
             Some (VStr "warning"))
  /\ derive_status (91 # 10) = "critical"
  /\ match ai_alerts opaque_repr ticking noon st with
     | Ok alerts =>
         tagged <$> alerts
         = [(Some (VStr "Mediterranean Sea"), Some (VStr "high"));
            (Some (VStr "Pacific Ocean"), Some (VStr "medium"))]
     | Raise _ => False
     end.
Proof. vm_compute. repeat split. Qed.

(** ** Where the claims as stated fail *)




(** C10 as stated fails for the job: the same audio gives a transcript when
    the upload succeeds and nothing when the upload fails, so two jobs on
    the same audio need not produce the same transcript. *)
Lemma failed_upload_gives_no_transcript :
  create_transcription_job opaque_repr cloud_down 1 2 noon
    (VBytes [Byte.x61; Byte.x62; Byte.x63]) VNone (VStr "en-US") VNone = None
  /\ exists r t,
       create_transcription_job opaque_repr cloud_up 1 2 noon
         (VBytes [Byte.x61; Byte.x62; Byte.x63]) VNone (VStr "en-US") VNone
       = Some r
       /\ dict_get "transcript" r = Some (VStr t).
Proof.
  split; [reflexivity|]. do 2 eexists. split; vm_compute; reflexivity.
Qed.

(** ** The theorems at concrete inputs *)

(** Storing three readings, two of which repeat the stored [sensor_001]:
    only [sensor_002] is added. *)
Example repeated_reading_is_stored_once :
  let '(ok, st, _) := store_sensor_data ticking indexed_store repeated_reading in
  ok = true
  /\ dict_get "id" <$> docs (sensors st)
     = [Some (VStr "sensor_001"); Some (VStr "sensor_002")].
Proof. vm_compute. repeat split. Qed.






Lemma transcription_is_deterministic_witness :
  exists t r r',
    _simulate_transcription (VBytes [Byte.x61; Byte.x62; Byte.x63]) = Ok t
    /\ create_transcription_job opaque_repr cloud_up 1 2 noon
         (VBytes [Byte.x61; Byte.x62; Byte.x63])
         VNone (VStr "en-US") VNone = Some r
    /\ create_transcription_job opaque_repr cloud_up 3 4 (ticking 5)
         (VBytes [Byte.x61; Byte.x62; Byte.x63])
         (VStr "job") (VStr "es-US") (VStr "algae") = Some r'
    /\ dict_get "transcript" r = Some (VStr t)
    /\ dict_get "transcript" r' = Some (VStr t).
Proof.
  destruct (transcription_is_deterministic opaque_repr
              [Byte.x61; Byte.x62; Byte.x63])
    as (n & t & _ & _ & Hsim & Hjob & _).
  destruct (Hjob cloud_up 1 2 noon VNone (VStr "en-US") VNone) as [H1 _].
  destruct (H1 eq_refl) as (r & Hr & Htr).
  destruct (Hjob cloud_up 3 4 (ticking 5) (VStr "job") (VStr "es-US")
              (VStr "algae")) as [H2 _].
  destruct (H2 eq_refl) as (r' & Hr' & Htr').
  exists t, r, r'. repeat split; assumption.
Defined.

Lemma store_sensor_data_again_witness :
  exists st' data' data'',
    store_sensor_data ticking indexed_store repeated_reading = (true, st', data')
    /\ store_sensor_data ticking st' data' = (true, st', data'').
Proof.
  destruct (store_sensor_data ticking indexed_store repeated_reading)
    as [[ok st'] data'] eqn:E.
  assert (Hok : ok = true).
  { vm_compute in E. by injection E as <- _ _. }
  subst ok.
  destruct (store_sensor_data_again ticking ticking indexed_store st'
              repeated_reading data') as [data'' H].
  - reflexivity.
  - repeat constructor.
  - intros Hin. apply elem_of_cons in Hin as [Hin|Hin]; [discriminate Hin|].
    by apply elem_of_nil in Hin.
  - exact E.
  - by exists st', data', data''.
Defined.

Lemma store_sensor_data_stops_at_non_dict_witness :
  exists st' good',
    store_sensor_data ticking (empty_store true) repeated_reading
    = (true, st', good')
    /\ store_sensor_data ticking (empty_store true)
         (repeated_reading ++ [VNone; VDict mediterranean])%list
       = (false, st', (good' ++ [VNone; VDict mediterranean])%list).
Proof.
  apply (store_sensor_data_stops_at_non_dict ticking (empty_store true)
           repeated_reading VNone [VDict mediterranean]).
  - reflexivity.
  - repeat constructor.
  - reflexivity.
Defined.

Lemma store_sensor_data_unreachable_witness :
  store_sensor_data ticking (empty_store false) [] = (true, empty_store false, [])
  /\ exists st' sensor',
       store_sensor_data ticking (empty_store false) [VDict mediterranean]
       = (false, st', [VDict sensor'])
       /\ docs (sensors st') = [].
Proof.
  destruct (store_sensor_data_unreachable ticking (empty_store false)
              mediterranean []) as (H0 & st' & sensor' & H & Hs & _).
  - reflexivity.
  - split; [exact H0|]. exists st', sensor'. split; [exact H|].
    rewrite Hs. reflexivity.
Defined.

Lemma alert_follows_thresholds_witness :
  exists alert,
    alert_of opaque_repr noon mediterranean = Ok [VDict alert]
    /\ dict_get "severity" alert = Some (VStr "high").
Proof.
  eexists. split; [vm_compute; reflexivity|].
  generalize (alert_follows_thresholds opaque_repr noon mediterranean (91 # 10)
                eq_refl).
  vm_compute. intros (_ & _ & H). exact H.
Defined.

Lemma chat_session_is_stored_but_not_answered_witness :
  exists stored st',
    api_citizen_chat_report opaque_repr isoformat 1751371200 noon noon
      (empty_store true) empty_collection
      (VDict [("message", VStr "green algae on the beach")])
    = (Json 500 (VDict [("error", VStr (message not_serializable))]), st',
       push empty_collection stored)
    /\ dict_get "user_message" stored = Some (VStr "green algae on the beach").
Proof.
  destruct (chat_session_is_stored_but_not_answered opaque_repr isoformat
              1751371200 noon noon (empty_store true) empty_collection
              [("message", VStr "green algae on the beach")]
              "green algae on the beach")
    as (stored & st' & H & Hm & _).
  - reflexivity.
  - discriminate.
  - reflexivity.
  - by exists stored, st'.
Defined.


Lemma bedrock_agent_answer_witness :
  exists body,
    api_bedrock_agent isoformat noon (VDict [("prompt", VStr "alert status")])
    = Json 200 (VDict body)
    /\ dict_get "user_input" body = Some (VStr "alert status").
Proof.
  destruct (bedrock_agent_answer isoformat noon
              (VDict [("prompt", VStr "alert status")]) eq_refl)
    as (body & H & Hu & _).
  by exists body.
Defined.

Lemma image_service_failure_is_answered_200_witness :
  rekognition_detect_labels cloud_down [Byte.x89; Byte.x50; Byte.x4e; Byte.x47]
  = Raise unreachable
  /\ api_analyze_image isoformat cloud_down image_form
     = Json 200 (VDict [("labels", VList [])]).
Proof.
  split; [reflexivity|].
  apply (image_service_failure_is_answered_200 isoformat cloud_down image_form
           (Upload "algae.png" [Byte.x89; Byte.x50; Byte.x4e; Byte.x47])
           unreachable).
  - reflexivity.
  - discriminate.
  - reflexivity.
Defined.

Lemma cleanup_summary_adds_up_witness :
  dict_get "active_missions" (get_cleanup_data cleanup_store) = Some (VInt 1)
  /\ dict_get "waste_collected_today" (get_cleanup_data cleanup_store)
     = Some (VInt 120)
  /\ dict_get "next_deployment" (get_cleanup_data cleanup_store)
     = Some (VStr "Baltic Sea").
Proof.
  rewrite (cleanup_summary_adds_up cleanup_store).
  - repeat split.
  - reflexivity.
  - repeat constructor.
Defined.

Lemma malformed_mission_zeroes_the_summary_witness :
  get_cleanup_data broken_cleanup_store = cleanup_summary cleanup_zero
  /\ dict_get "active_missions" (get_cleanup_data broken_cleanup_store)
     = Some (VInt 0).
Proof.
  assert (H : get_cleanup_data broken_cleanup_store
              = cleanup_summary cleanup_zero).
  { apply (malformed_mission_zeroes_the_summary broken_cleanup_store
             [("status", VStr "active"); ("robots", VInt 3)] (VInt 3)).
    - right. left.
    - reflexivity.
    - reflexivity. }
  split; [exact H|]. rewrite H. reflexivity.
Defined.

Lemma report_location_is_renamed_witness :
  exists report,
    build_report no_float plain_host cloud_up (report_form "7") = Ok report
    /\ dict_has "location" report = false
    /\ dict_get "location_name" report = Some (VStr "Baltic Sea").
Proof.
  destruct (build_report no_float plain_host cloud_up (report_form "7"))
    as [report|e] eqn:E; [|vm_compute in E; discriminate E].
  exists report. split; [reflexivity|].
  destruct (report_location_is_renamed no_float plain_host cloud_up
              (report_form "7") report E) as (H1 & H2 & _).
  split; [exact H1|exact H2].
Defined.


Lemma report_with_image_survives_analysis_witness :
  exists report,
    build_report no_float plain_host cloud_up image_form = Ok report
    /\ dict_get "image_path" report = Some (VStr "uploads/algae.png")
    /\ dict_get "image_analysis" report = Some (VList []).
Proof.
  destruct (build_report no_float plain_host cloud_up image_form)
    as [report|e] eqn:E; [|vm_compute in E; discriminate E].
  exists report. split; [reflexivity|].
  destruct (report_with_image_survives_analysis no_float plain_host cloud_up
              image_form
              (Upload "algae.png" [Byte.x89; Byte.x50; Byte.x4e; Byte.x47])
              report) as (_ & H2 & H3).
  - reflexivity.
  - discriminate.
  - exact E.
  - split; [exact H2|exact H3].
Defined.

Lemma dashboard_visit_copies_recent_sensors_witness :
  length (docs (sensors sample_store)) = 5%nat
  /\ exists st' copies,
       index_store_step opaque_repr ticking ticking sample_store
       = (true, st', VDict <$> copies)
       /\ length (docs (sensors st')) = 10%nat.
Proof.
  split; [reflexivity|].
  destruct (dashboard_visit_copies_recent_sensors opaque_repr ticking ticking
              sample_store) as (st' & copies & H1 & H2 & H3 & _).
  - reflexivity.
  - reflexivity.
  - vm_compute. repeat (constructor; [eexists; reflexivity|]). constructor.
  - vm_compute.
    repeat (apply NoDup_cons; split;
            [intros Hin;
             repeat (apply elem_of_cons in Hin as [Hin|Hin];
                     [discriminate Hin|]);
             by apply elem_of_nil in Hin|]).
    apply NoDup_nil. exact I.
  - exists st', copies. split; [exact H1|].
    rewrite H2, length_app, <- (Forall2_length _ _ _ H3). reflexivity.
Defined.

Lemma alert_detail_has_no_threshold_witness :
  (exists alerts,
     ai_alerts opaque_repr ticking noon sample_store = Ok alerts
     /\ length alerts = 2%nat)
  /\ exists detail,
       api_ai_alert_detail opaque_repr isoformat ticking sample_store
         "alert-sensor_init_004"
       = Json 200 (VDict detail)
       /\ dict_get "location" detail = Some (VStr "Arctic Ocean")
       /\ dict_get "severity" detail = Some (VStr "medium").
Proof.
  split; [eexists; split; [vm_compute; reflexivity|reflexivity]|].
  edestruct (alert_detail_has_no_threshold opaque_repr isoformat ticking
               sample_store "alert-sensor_init_004" [])
    as (detail & H & Hl & _ & Hs).
  - vm_compute. reflexivity.
  - constructor.
  - reflexivity.
  - reflexivity.
  - reflexivity.
  - reflexivity.
  - reflexivity.
  - reflexivity.
  - reflexivity.
  - exists detail. split; [exact H|]. split; [exact Hl|exact Hs].
Defined.
